(** * Voxel-level brain age prediction: the entry point [main_unetr.py]

    A shallow embedding of [main_unetr.py] and of what it calls.

    The script is a straight-line orchestration of calls into an external
    deep-learning framework (torch, monai, wandb), into the Python standard
    library ([os.environ], [os.makedirs]) and into four functions of the
    repository that live in other modules ([load_last_model], [load_data],
    [train], [test]).  The embedding keeps that shape:

    - the framework is an interface ([Framework]): opaque types for its
      objects, an opaque state [W] for everything it owns (devices, the
      tracker, the autograd engine), and one operation per call the script
      makes, each of which may return or raise;
    - the process environment and the file system are explicit maps; the
      calls into the framework act on [W] only, the four functions of the
      repository on the file system and on [W];
    - the script itself runs in a small state-and-exception monad [M] that
      also records the trace of calls with the memory each call started
      from and its outcome.  [M] has no handler: the script has no
      [try]/[except];
    - Python integers are [Z]; validation losses are an opaque type, they
      are only stored and handed back.

    The [import] statements at the top of the file are not modelled: what
    the imported modules do when they are loaded is outside the sources. *)

From stdpp Require Import gmap strings list.

Local Open Scope string_scope.
Local Open Scope Z_scope.
Local Open Scope list_scope.

(** ** Paths, exceptions *)

(** A path is the list of its components, innermost first: [a/b/c] is
    [["c"; "b"; "a"]], so that the parent directory is the tail.  The empty
    list is the directory the process starts from, which exists. *)
Abbreviation path := (list string).

Inductive exn : Type :=
  | FileExistsError (p : path)
  | FileNotFoundError (p : path)
  | NotADirectoryError (p : path)
  | FrameworkError (kind message : string).

(** ** The external framework *)

Class Framework : Type := {
  (* objects handed around by the script *)
  Device : Type;
  Settings : Type;
  Run : Type;
  Model : Type;
  ParamIter : Type;
  Kwargs : Type;
  Optimizer : Type;
  Scheduler : Type;
  Loss : Type;
  Dataset : Type;
  Loader : Type;
  (* everything the framework owns *)
  W : Type;
  (* monai.config.print_config() *)
  print_config : W → (exn + unit) * W;
  (* wandb.run is None *)
  wandb_run_is_None : W → bool;
  (* wandb.Settings(start_method=..., _service_wait=...) *)
  wandb_Settings : string → Z → W → (exn + Settings) * W;
  (* wandb.init(project=..., settings=...) *)
  wandb_init : string → Settings → W → (exn + Run) * W;
  (* wandb.run.name = ... *)
  wandb_run_set_name : string → W → (exn + unit) * W;
  (* torch.cuda.is_available() *)
  cuda_is_available : W → (exn + bool) * W;
  (* torch.device(...) *)
  torch_device : string → W → (exn + Device) * W;
  (* monai.networks.nets.UNETR(spatial_dims, in_channels, out_channels, img_size) *)
  UNETR : Z → Z → Z → Z * Z * Z → W → (exn + Model) * W;
  (* torch.nn.DataParallel(model) *)
  DataParallel : Model → W → (exn + Model) * W;
  (* model.to(device) *)
  to : Model → Device → W → (exn + Model) * W;
  (* model.parameters() *)
  parameters : Model → W → (exn + ParamIter) * W
}.

Section Program.
Context `{F : Framework}.

(** ** Checkpoints and the file system *)

(** The checkpoint record of the data model: epoch index, the three states
    and the two validation losses. *)
Record checkpoint : Type := Checkpoint {
  ck_epoch : Z;
  ck_model : Model;
  ck_optimizer : Optimizer;
  ck_scheduler : Scheduler;
  ck_last_val_loss : Loss;
  ck_best_val_loss : Loss
}.

Inductive file_data : Type :=
  | CheckpointFile (ck : checkpoint)
  | OtherFile.

Inductive node : Type :=
  | Dir
  | File (mtime : Z) (data : file_data).

(** [os.path.exists] and [os.path.isdir]. *)
Definition node_at (fs : gmap path node) (p : path) : option node :=
  match p with
  | [] => Some Dir
  | _ => fs !! p
  end.

Definition exists_ (fs : gmap path node) (p : path) : bool :=
  match node_at fs p with Some _ => true | None => false end.

Definition isdir (fs : gmap path node) (p : path) : bool :=
  match node_at fs p with Some Dir => true | _ => false end.

(** [os.mkdir]: the path must be free and its parent a directory. *)
Definition mkdir (name : path) (fs : gmap path node)
  : (exn + unit) * gmap path node :=
  match name with
  | [] => (inl (FileExistsError name), fs)
  | _ :: head =>
      if exists_ fs name then (inl (FileExistsError name), fs)
      else if isdir fs head then (inr (), <[name := Dir]> fs)
      else if exists_ fs head then (inl (NotADirectoryError name), fs)
      else (inl (FileNotFoundError name), fs)
  end.

(** The tail of [os.makedirs]: [mkdir] the leaf; its error is swallowed when
    [exist_ok] is set and the path is a directory. *)
Definition mkdir_leaf (name : path) (exist_ok : bool) (fs : gmap path node)
  : (exn + unit) * gmap path node :=
  match mkdir name fs with
  | (inl e, fs1) =>
      if negb exist_ok || negb (isdir fs1 name) then (inl e, fs1)
      else (inr (), fs1)
  | ok => ok
  end.

(** [os.makedirs(name, exist_ok=...)]: when the parent is missing, create it
    the same way first (a [FileExistsError] there is passed over), then the
    leaf. *)
Fixpoint makedirs (name : path) (exist_ok : bool) (fs : gmap path node)
  : (exn + unit) * gmap path node :=
  match name with
  | [] => mkdir_leaf name exist_ok fs
  | _ :: head =>
      match head with
      | [] => mkdir_leaf name exist_ok fs
      | _ :: _ =>
          if exists_ fs head then mkdir_leaf name exist_ok fs
          else
            match makedirs head exist_ok fs with
            | (inl (FileExistsError _), fs1) => mkdir_leaf name exist_ok fs1
            | (inl e, fs1) => (inl e, fs1)
            | (inr _, fs1) => mkdir_leaf name exist_ok fs1
            end
      end
  end.

(** No regular file sits at the path or above it. *)
Fixpoint clear_of_files (fs : gmap path node) (p : path) : bool :=
  match p with
  | [] => true
  | _ :: head =>
      match fs !! p with
      | Some (File _ _) => false
      | _ => clear_of_files fs head
      end
  end.

(** What [mkdir_leaf] and [makedirs] leave of the old file system: every
    entry is as before, or is a directory that was not there. *)
Definition only_adds_dirs (fs fs' : gmap path node) : Prop :=
  ∀ q, fs' !! q = fs !! q ∨ (fs !! q = None ∧ fs' !! q = Some Dir).

(** ** Memory, traces and the monad of the script *)

Record memory : Type := Memory {
  argv : list string;
  environ : gmap string string;
  fs : gmap path node;
  cudnn_benchmark : bool;
  stdout : list string;
  ext : W
}.

(** A class supplied by the configuration is something callable. *)
Definition optimizer_class : Type :=
  ParamIter → Kwargs → W → (exn + Optimizer) * W.
Definition scheduler_class : Type :=
  Optimizer → Kwargs → W → (exn + Scheduler) * W.

Definition resumed : Type := Model * Optimizer * Scheduler * Z * Loss * Loss.
Definition loaders : Type := Dataset * Loader * Dataset * Loader * Dataset * Loader.

(** The calls the script makes, with their arguments. *)
Inductive event : Type :=
  | PrintConfig
  | SetEnviron (key value : string)
  | WandbSettings (start_method : string) (_service_wait : Z)
  | WandbInit (project : string) (settings : Settings)
  | SetRunName (name : string)
  | SetCudnnBenchmark (b : bool)
  | CudaIsAvailable
  | TorchDevice (kind : string)
  | PrintLine (message : string)
  | Makedirs (name : path) (exist_ok : bool)
  | MakeUNETR (spatial_dims in_channels out_channels : Z) (img_size : Z * Z * Z)
  | WrapDataParallel (model : Model)
  | ModelTo (model : Model) (device : Device)
  | ModelParameters (model : Model)
  | MakeOptimizer (cls : optimizer_class) (params : ParamIter) (kwargs : Kwargs)
  | MakeScheduler (cls : scheduler_class) (optimizer : Optimizer) (kwargs : Kwargs)
  | LoadLastModel (model : Model) (optimizer : Optimizer) (scheduler : Scheduler)
      (directory_name : path)
  | LoadData (test_set_path full_data_path : string)
  | Train (train_loader val_loader : Loader) (model : Model)
      (optimizer : Optimizer) (scheduler : Scheduler) (max_epochs : Z)
      (directory_name : path) (start_epoch : Z)
  | TestModel (test_loader : Loader) (model : Model) (directory_name : path)
      (test_csv : string).

Inductive outcome : Type :=
  | Returned
  | Raised (e : exn).

Record entry : Type := Entry {
  e_call : event;
  e_before : memory;
  e_outcome : outcome
}.

Definition M (A : Type) : Type := memory → (exn + A) * memory * list entry.

Definition ret {A} (a : A) : M A := λ m, (inr a, m, []).

Definition bind {A B} (c : M A) (k : A → M B) : M B :=
  λ m,
    match c m with
    | (inl e, m1, t1) => (inl e, m1, t1)
    | (inr a, m1, t1) =>
        match k a m1 with
        | (r, m2, t2) => (r, m2, t1 ++ t2)
        end
    end.

(** Reading what the framework exposes as an attribute. *)
Definition read {A} (f : W → A) : M A := λ m, (inr (f (ext m)), m, []).

Definition call {R} (ev : event) (op : memory → (exn + R) * memory) : M R :=
  λ m,
    match op m with
    | (inl e, m') => (inl e, m', [Entry ev m (Raised e)])
    | (inr v, m') => (inr v, m', [Entry ev m Returned])
    end.

#[local] Instance M_ret : MRet M := @ret.
#[local] Instance M_bind : MBind M := λ A B k c, bind c k.

Definition result {A} (x : (exn + A) * memory * list entry) : exn + A := x.1.1.
Definition final {A} (x : (exn + A) * memory * list entry) : memory := x.1.2.
Definition trace {A} (x : (exn + A) * memory * list entry) : list entry := x.2.
Definition calls {A} (x : (exn + A) * memory * list entry) : list event :=
  e_call <$> trace x.
Definition returned {A} (x : (exn + A) * memory * list entry) : bool :=
  match result x with inr _ => true | inl _ => false end.

(** The three ways a call reaches the memory.  A call into the framework
    is given the framework's state, a function of the repository the files
    and the framework's state, [os.makedirs] the files.  What a library
    does on its own to the process environment, to files or to the standard
    output is not represented: [environ] and [stdout] hold what the script
    itself assigns and prints, on top of what was there at the start. *)
Definition framework {R} (op : W → (exn + R) * W)
  : memory → (exn + R) * memory :=
  λ m,
    match op (ext m) with
    | (r, w) =>
        (r, Memory (argv m) (environ m) (fs m) (cudnn_benchmark m) (stdout m) w)
    end.

Definition collaborator {R}
    (op : gmap path node → W → (exn + R) * (gmap path node * W))
  : memory → (exn + R) * memory :=
  λ m,
    match op (fs m) (ext m) with
    | (r, (fs', w)) =>
        (r, Memory (argv m) (environ m) fs' (cudnn_benchmark m) (stdout m) w)
    end.

Definition on_fs {R} (op : gmap path node → (exn + R) * gmap path node)
  : memory → (exn + R) * memory :=
  λ m,
    match op (fs m) with
    | (r, fs') =>
        (r, Memory (argv m) (environ m) fs' (cudnn_benchmark m) (stdout m) (ext m))
    end.

(** [os.environ[key] = value] *)
Definition os_environ_set (key value : string) : M unit :=
  call (SetEnviron key value)
    (λ m, (inr (), Memory (argv m) (<[key := value]> (environ m)) (fs m)
                     (cudnn_benchmark m) (stdout m) (ext m))).

(** [torch.backends.cudnn.benchmark = b] *)
Definition cudnn_benchmark_set (b : bool) : M unit :=
  call (SetCudnnBenchmark b)
    (λ m, (inr (), Memory (argv m) (environ m) (fs m) b (stdout m) (ext m))).

(** [print(message)] *)
Definition print (message : string) : M unit :=
  call (PrintLine message)
    (λ m, (inr (), Memory (argv m) (environ m) (fs m) (cudnn_benchmark m)
                     (stdout m ++ [message]) (ext m))).

(** [os.makedirs(name, exist_ok=exist_ok)] *)
Definition os_makedirs (name : path) (exist_ok : bool) : M unit :=
  call (Makedirs name exist_ok) (on_fs (makedirs name exist_ok)).

(** ** The functions of the repository defined in other modules

    [load_last_model] and [train] come from [train.py], [load_data] from
    [load_data.py], [test] from [testfunction.py].  The script only calls
    them; here they are parameters.  They read and write files and drive
    the framework. *)
Class Collaborators : Type := {
  load_last_model :
    Model → Optimizer → Scheduler → path →
    gmap path node → W → (exn + resumed) * (gmap path node * W);
  load_data :
    string → string →
    gmap path node → W → (exn + loaders) * (gmap path node * W);
  train :
    Loader → Loader → Model → Optimizer → Scheduler → Z → path → Z →
    gmap path node → W → (exn + unit) * (gmap path node * W);
  test :
    Loader → Model → path → string →
    gmap path node → W → (exn + unit) * (gmap path node * W)
}.

(** ** The configuration ([config.py]) *)
Record config : Type := Config {
  UNETR_OUTPUT_DIR : path;
  UNETR_PROJECT_NAME : string;
  FULL_DATA_CSV : string;
  TEST_CSV : string;
  UNETR_OPTIMIZER_CLASS : optimizer_class;
  UNETR_OPTIMIZER_PARAMS : Kwargs;
  UNETR_SCHEDULER_CLASS : scheduler_class;
  UNETR_SCHEDULER_PARAMS : Kwargs;
  UNETR_MAX_EPOCHS : Z
}.

Context `{C : Collaborators}.
Variable cfg : config.

(** ** The script *)

(** The statements of the module up to the definition of [main]; the value
    is the module's global [device]. *)
Definition module_setup : M Device :=
  call PrintConfig (framework print_config);;
  os_environ_set "PYTORCH_CUDA_ALLOC_CONF" "expandable_segments:True";;
  run_is_None ← read wandb_run_is_None;
  (if run_is_None : bool then
     settings ← call (WandbSettings "fork" 300)
                   (framework (wandb_Settings "fork" 300));
     call (WandbInit (UNETR_PROJECT_NAME cfg) settings)
       (framework (wandb_init (UNETR_PROJECT_NAME cfg) settings));;
     call (SetRunName "x") (framework (wandb_run_set_name "x"))
   else mret ());;
  cudnn_benchmark_set true;;
  os_environ_set "TORCH_USE_CUDA_DSA" "1";;
  available ← call CudaIsAvailable (framework cuda_is_available);
  call (TorchDevice (if available : bool then "cuda" else "cpu"))
    (framework (torch_device (if available : bool then "cuda" else "cpu"))).

(** [main()]; [device] is the module's global of that name. *)
Definition main (device : Device) : M unit :=
  let directory_name := UNETR_OUTPUT_DIR cfg in
  os_makedirs directory_name true;;
  model ← call (MakeUNETR 3 1 1 (128, 160, 128))
            (framework (UNETR 3 1 1 (128, 160, 128)));
  model ← call (WrapDataParallel model) (framework (DataParallel model));
  model ← call (ModelTo model device) (framework (to model device));
  params ← call (ModelParameters model) (framework (parameters model));
  optimizer ←
    call (MakeOptimizer (UNETR_OPTIMIZER_CLASS cfg) params (UNETR_OPTIMIZER_PARAMS cfg))
      (framework (UNETR_OPTIMIZER_CLASS cfg params (UNETR_OPTIMIZER_PARAMS cfg)));
  scheduler ←
    call (MakeScheduler (UNETR_SCHEDULER_CLASS cfg) optimizer (UNETR_SCHEDULER_PARAMS cfg))
      (framework (UNETR_SCHEDULER_CLASS cfg optimizer (UNETR_SCHEDULER_PARAMS cfg)));
  let max_epochs := UNETR_MAX_EPOCHS cfg in
  '(model, optimizer, scheduler, start_epoch, last_val_loss, best_val_loss) ←
    call (LoadLastModel model optimizer scheduler directory_name)
      (collaborator (load_last_model model optimizer scheduler directory_name));
  '(ds_train, train_loader, ds_val, val_loader, ds_test, test_loader) ←
    call (LoadData (TEST_CSV cfg) (FULL_DATA_CSV cfg))
      (collaborator (load_data (TEST_CSV cfg) (FULL_DATA_CSV cfg)));
  call (Train train_loader val_loader model optimizer scheduler max_epochs
          directory_name start_epoch)
    (collaborator (train train_loader val_loader model optimizer scheduler
                     max_epochs directory_name start_epoch));;
  call (TestModel test_loader model directory_name (TEST_CSV cfg))
    (collaborator (test test_loader model directory_name (TEST_CSV cfg))).

(** The block under [if __name__ == "__main__":]: the device is chosen
    again, then [main()] is called. *)
Definition select_device : M Device :=
  available ← call CudaIsAvailable (framework cuda_is_available);
  if available : bool then
    call (TorchDevice "cuda") (framework (torch_device "cuda"))
  else
    device ← call (TorchDevice "cpu") (framework (torch_device "cpu"));
    print "CUDA is not available. Using CPU.";;
    mret device.

Definition dunder_main : M unit :=
  device ← select_device;
  main device.

(** Running the file as a script. *)
Definition script : M unit :=
  module_setup;; dunder_main.

End Program.

(** ** What is read off a trace *)

Section Observations.
Context `{F : Framework}.

(** The steps of the control flow. *)
Inductive phase : Type :=
  | ConfigureEnvironment
  | BuildModel
  | BuildOptimizerScheduler
  | CheckpointResume
  | BuildDataLoaders
  | TrainingLoop
  | FinalEvaluation.

#[export] Instance phase_eq_dec : EqDecision phase.
Proof. solve_decision. Defined.

Definition phase_of (ev : event) : phase :=
  match ev with
  | PrintConfig | SetEnviron _ _ | WandbSettings _ _ | WandbInit _ _
  | SetRunName _ | SetCudnnBenchmark _ | CudaIsAvailable | TorchDevice _
  | PrintLine _ | Makedirs _ _ => ConfigureEnvironment
  | MakeUNETR _ _ _ _ | WrapDataParallel _ | ModelTo _ _ => BuildModel
  | ModelParameters _ | MakeOptimizer _ _ _ | MakeScheduler _ _ _ =>
      BuildOptimizerScheduler
  | LoadLastModel _ _ _ _ => CheckpointResume
  | LoadData _ _ => BuildDataLoaders
  | Train _ _ _ _ _ _ _ _ => TrainingLoop
  | TestModel _ _ _ _ => FinalEvaluation
  end.

(** Consecutive calls of one step count as that step, once. *)
Fixpoint blocks (l : list phase) : list phase :=
  match l with
  | [] => []
  | p :: rest =>
      match rest with
      | [] => [p]
      | q :: _ => if decide (p = q) then blocks rest else p :: blocks rest
      end
  end.

Definition steps {A} (x : (exn + A) * memory * list entry) : list phase :=
  blocks (phase_of <$> calls x).


(** The assignments to [os.environ], in order. *)
Definition environ_writes (l : list event) : list (string * string) :=
  l ≫= λ ev, match ev with SetEnviron k v => [(k, v)] | _ => [] end.

(** The two assignments the script makes. *)
Definition environ_assignments : list (string * string) :=
  [("PYTORCH_CUDA_ALLOC_CONF", "expandable_segments:True");
   ("TORCH_USE_CUDA_DSA", "1")].


(** The arguments of a call that are plain values, as opposed to objects
    obtained from an earlier call. *)
Inductive literal : Type :=
  | LStr (s : string)
  | LInt (z : Z)
  | LBool (b : bool)
  | LShape (t : Z * Z * Z)
  | LPath (p : path)
  | LOptimizerClass (c : optimizer_class)
  | LSchedulerClass (c : scheduler_class)
  | LKwargs (k : Kwargs).

Definition literals (ev : event) : list literal :=
  match ev with
  | PrintConfig | CudaIsAvailable => []
  | SetEnviron key value => [LStr key; LStr value]
  | WandbSettings start_method service_wait => [LStr start_method; LInt service_wait]
  | WandbInit project _ => [LStr project]
  | SetRunName name => [LStr name]
  | SetCudnnBenchmark b => [LBool b]
  | TorchDevice kind => [LStr kind]
  | PrintLine message => [LStr message]
  | Makedirs name exist_ok => [LPath name; LBool exist_ok]
  | MakeUNETR spatial_dims in_channels out_channels img_size =>
      [LInt spatial_dims; LInt in_channels; LInt out_channels; LShape img_size]
  | WrapDataParallel _ | ModelTo _ _ | ModelParameters _ => []
  | MakeOptimizer cls _ kwargs => [LOptimizerClass cls; LKwargs kwargs]
  | MakeScheduler cls _ kwargs => [LSchedulerClass cls; LKwargs kwargs]
  | LoadLastModel _ _ _ directory_name => [LPath directory_name]
  | LoadData test_set_path full_data_path => [LStr test_set_path; LStr full_data_path]
  | Train _ _ _ _ _ max_epochs directory_name _ => [LInt max_epochs; LPath directory_name]
  | TestModel _ _ directory_name test_csv => [LPath directory_name; LStr test_csv]
  end.

(** What the configuration supplies. *)
Definition configured (cfg : config) : list literal :=
  [LPath (UNETR_OUTPUT_DIR cfg); LStr (UNETR_PROJECT_NAME cfg);
   LStr (FULL_DATA_CSV cfg); LStr (TEST_CSV cfg);
   LOptimizerClass (UNETR_OPTIMIZER_CLASS cfg); LKwargs (UNETR_OPTIMIZER_PARAMS cfg);
   LSchedulerClass (UNETR_SCHEDULER_CLASS cfg); LKwargs (UNETR_SCHEDULER_PARAMS cfg);
   LInt (UNETR_MAX_EPOCHS cfg)].

(** Every plain argument of a call is a value of the configuration. *)
Definition only_configured (cfg : config) (ev : event) : Prop :=
  Forall (λ l, l ∈ configured cfg) (literals ev).

(** What the text of the script supplies. *)
Definition written_in_script : list literal :=
  [LStr "PYTORCH_CUDA_ALLOC_CONF"; LStr "expandable_segments:True";
   LStr "fork"; LInt 300; LStr "x"; LBool true;
   LStr "TORCH_USE_CUDA_DSA"; LStr "1"; LStr "cuda"; LStr "cpu";
   LStr "CUDA is not available. Using CPU.";
   LInt 3; LInt 1; LShape (128, 160, 128)].

(** The command line of the process, and the same run seen from a process
    started with another command line. *)
Definition with_argv (a : list string) (m : memory) : memory :=
  Memory a (environ m) (fs m) (cudnn_benchmark m) (stdout m) (ext m).

Definition retarget {A} (a : list string) (x : (exn + A) * memory * list entry)
  : (exn + A) * memory * list entry :=
  (result x, with_argv a (final x),
   (λ en, Entry (e_call en) (with_argv a (e_before en)) (e_outcome en)) <$> trace x).

(** A run in which nothing is caught: every call but the last returned, and
    the run ends with an exception exactly when its last call raised it. *)
Definition propagates {A} (x : (exn + A) * memory * list entry) : Prop :=
  match result x with
  | inl e =>
      ∃ init en,
        trace x = init ++ [en] ∧ e_outcome en = Raised e
        ∧ Forall (λ en, e_outcome en = Returned) init
  | inr _ => Forall (λ en, e_outcome en = Returned) (trace x)
  end.

(** Each call has the arguments the script writes for it. *)
Definition as_written (cfg : config) (ev : event) : Prop :=
  match ev with
  | SetEnviron key value =>
      (key, value) = ("PYTORCH_CUDA_ALLOC_CONF", "expandable_segments:True")
      ∨ (key, value) = ("TORCH_USE_CUDA_DSA", "1")
  | WandbSettings start_method service_wait =>
      start_method = "fork" ∧ service_wait = 300
  | WandbInit project _ => project = UNETR_PROJECT_NAME cfg
  | SetRunName name => name = "x"
  | SetCudnnBenchmark b => b = true
  | TorchDevice kind => kind = "cuda" ∨ kind = "cpu"
  | PrintLine message => message = "CUDA is not available. Using CPU."
  | Makedirs name exist_ok => name = UNETR_OUTPUT_DIR cfg ∧ exist_ok = true
  | MakeUNETR spatial_dims in_channels out_channels img_size =>
      spatial_dims = 3 ∧ in_channels = 1 ∧ out_channels = 1
      ∧ img_size = (128, 160, 128)
  | MakeOptimizer cls _ kwargs =>
      cls = UNETR_OPTIMIZER_CLASS cfg ∧ kwargs = UNETR_OPTIMIZER_PARAMS cfg
  | MakeScheduler cls _ kwargs =>
      cls = UNETR_SCHEDULER_CLASS cfg ∧ kwargs = UNETR_SCHEDULER_PARAMS cfg
  | LoadLastModel _ _ _ directory_name => directory_name = UNETR_OUTPUT_DIR cfg
  | LoadData test_set_path full_data_path =>
      test_set_path = TEST_CSV cfg ∧ full_data_path = FULL_DATA_CSV cfg
  | Train _ _ _ _ _ max_epochs directory_name _ =>
      max_epochs = UNETR_MAX_EPOCHS cfg ∧ directory_name = UNETR_OUTPUT_DIR cfg
  | TestModel _ _ directory_name test_csv =>
      directory_name = UNETR_OUTPUT_DIR cfg ∧ test_csv = TEST_CSV cfg
  | PrintConfig | CudaIsAvailable | WrapDataParallel _ | ModelTo _ _
  | ModelParameters _ => True
  end.

(** Every plain argument of a call comes from the configuration or from
    the text of the script. *)
Definition accounted (cfg : config) (ev : event) : Prop :=
  Forall (λ l, l ∈ configured cfg ∨ l ∈ written_in_script) (literals ev).

End Observations.

(** ** [train.py] *)

Module TrainPy.
Section TrainPy.
Context `{F : Framework}.

(** Modelled from the spec: what [load_last_model] looks at, the checkpoint
    files of a directory, each with its modification time. *)
Definition checkpoints_in (fs : gmap path node) (directory_name : path)
  : list (Z * checkpoint) :=
  omap (λ entry : path * node,
          match entry with
          | (_ :: parent, File mtime (CheckpointFile ck)) =>
              if decide (parent = directory_name) then Some (mtime, ck) else None
          | _ => None
          end)
       (map_to_list fs).

(** Modelled from the spec: "the most recent checkpoint", read as one with
    the greatest modification time. *)
Fixpoint most_recent (l : list (Z * checkpoint)) : option (Z * checkpoint) :=
  match l with
  | [] => None
  | x :: rest =>
      match most_recent rest with
      | None => Some x
      | Some y => Some (if decide (x.1 < y.1) then y else x)
      end
  end.

(** Modelled from the spec: the loss values a run starts from when there is
    no checkpoint ("default best/last loss sentinels"); the spec does not
    give their values. *)
Variables default_last_val_loss default_best_val_loss : Loss.

(** Modelled from the spec: [load_last_model] of [train.py], which is not
    among the sources.  "Attempts to load the most recent checkpoint from a
    directory; on success, restores model/optimizer/scheduler state and
    resumes the epoch counter and best/last validation loss; on absence,
    starts from epoch zero with default state."  The checkpoint is "read
    once at startup; never deleted by this code".  A value of type [Model],
    [Optimizer] or [Scheduler] stands for the object with its state. *)
Definition load_last_model (model : Model) (optimizer : Optimizer)
    (scheduler : Scheduler) (directory_name : path)
    (fs : gmap path node) (w : W)
  : (exn + resumed) * (gmap path node * W) :=
  match most_recent (checkpoints_in fs directory_name) with
  | Some (_, ck) =>
      (inr (ck_model ck, ck_optimizer ck, ck_scheduler ck, ck_epoch ck,
            ck_last_val_loss ck, ck_best_val_loss ck), (fs, w))
  | None =>
      (inr (model, optimizer, scheduler, 0,
            default_last_val_loss, default_best_val_loss), (fs, w))
  end.


(** Resuming twice in a row: the second call gets what the first returned. *)
Definition load_last_model_twice (model : Model) (optimizer : Optimizer)
    (scheduler : Scheduler) (directory_name : path)
    (fs : gmap path node) (w : W)
  : (exn + resumed) * (gmap path node * W) :=
  match load_last_model model optimizer scheduler directory_name fs w with
  | (inr (model, optimizer, scheduler, _, _, _), (fs, w)) =>
      load_last_model model optimizer scheduler directory_name fs w
  | raised => raised
  end.

(** [range(start, stop)] *)
Definition range (start stop : Z) : list Z := seqZ start (stop - start).

(** Modelled from the spec: the loop of [train], a [for] over epochs whose
    body may raise; the third component is the list of epochs whose body
    was entered. *)
Fixpoint for_epoch_in {St : Type} (epochs : list Z)
    (body : Z → St → (exn + unit) * St) (s : St) : (exn + unit) * St * list Z :=
  match epochs with
  | [] => (inr (), s, [])
  | epoch :: rest =>
      match body epoch s with
      | (inl e, s1) => (inl e, s1, [epoch])
      | (inr _, s1) =>
          match for_epoch_in rest body s1 with
          | (r, s2, ran) => (r, s2, epoch :: ran)
          end
      end
  end.

(** Modelled from the spec: the work of one epoch, which [train] delegates:
    "per-epoch forward/backward/update work", "periodically evaluating on a
    validation set to update best and last loss bookkeeping and persist
    checkpoints". *)
Variable one_epoch :
  Loader → Loader → Model → Optimizer → Scheduler → path → Z →
  gmap path node * W → (exn + unit) * (gmap path node * W).

(** Modelled from the spec: [train] of [train.py], which is not among the
    sources.  "Iterates epochs from the resumed start index to a configured
    maximum". *)
Definition train_epochs (train_loader val_loader : Loader) (model : Model)
    (optimizer : Optimizer) (scheduler : Scheduler) (max_epochs : Z)
    (directory_name : path) (start_epoch : Z) (fs : gmap path node) (w : W)
  : (exn + unit) * (gmap path node * W) * list Z :=
  for_epoch_in (range start_epoch max_epochs)
    (one_epoch train_loader val_loader model optimizer scheduler directory_name)
    (fs, w).

Definition train (train_loader val_loader : Loader) (model : Model)
    (optimizer : Optimizer) (scheduler : Scheduler) (max_epochs : Z)
    (directory_name : path) (start_epoch : Z) (fs : gmap path node) (w : W)
  : (exn + unit) * (gmap path node * W) :=
  (train_epochs train_loader val_loader model optimizer scheduler max_epochs
     directory_name start_epoch fs w).1.

End TrainPy.
End TrainPy.

(** The collaborators with [load_last_model] and [train] as modelled. *)
Definition as_modelled `{F : Framework} (C : Collaborators)
    (default_last_val_loss default_best_val_loss : Loss)
    (one_epoch : Loader → Loader → Model → Optimizer → Scheduler → path → Z →
                 gmap path node * W → (exn + unit) * (gmap path node * W))
  : Collaborators :=
  {| load_last_model :=
       TrainPy.load_last_model default_last_val_loss default_best_val_loss;
     load_data := @load_data F C;
     train := TrainPy.train one_epoch;
     test := @test F C |}.

(** ** A small framework to run the script on *)

Module Toy.

Definition ok {A} (a : A) : unit → (exn + A) * unit := λ w, (inr a, w).
Definition ok_fs {A B} (a : A) (fs : B) : unit → (exn + A) * (B * unit) :=
  λ w, (inr a, (fs, w)).

#[export] Instance F : Framework := {|
  Device := string;
  Settings := string * Z;
  Run := string;
  Model := string;
  ParamIter := string;
  Kwargs := list (string * Z);
  Optimizer := string;
  Scheduler := string;
  Loss := Z;
  Dataset := string;
  Loader := string;
  W := unit;
  print_config := ok ();
  wandb_run_is_None := λ _, true;
  wandb_Settings := λ start_method service_wait, ok (start_method, service_wait);
  wandb_init := λ project _, ok project;
  wandb_run_set_name := λ _, ok ();
  cuda_is_available := ok false;
  torch_device := λ kind, ok kind;
  UNETR := λ _ _ _ _, ok "unetr";
  DataParallel := λ model, ok model;
  to := λ model _, ok model;
  parameters := λ _, ok "parameters"
|}.

(** Collaborators that do nothing and return. *)
Definition quiet : Collaborators := {|
  load_last_model := λ model optimizer scheduler _ fs,
    ok_fs (model, optimizer, scheduler, 0, 0, 0) fs;
  load_data := λ _ _ fs,
    ok_fs ("ds_train", "train_loader", "ds_val", "val_loader", "ds_test",
           "test_loader") fs;
  train := λ _ _ _ _ _ _ _ _ fs, ok_fs () fs;
  test := λ _ _ _ _ fs, ok_fs () fs
|}.

(** The same, with a full-data CSV that cannot be read. *)
Definition missing_csv : Collaborators := {|
  load_last_model := @load_last_model F quiet;
  load_data := λ _ full_data_path fs w,
    (inl (FileNotFoundError [full_data_path]), (fs, w));
  train := @train F quiet;
  test := @test F quiet
|}.

Definition cfg : config := {|
  UNETR_OUTPUT_DIR := ["unetr"; "outputs"];
  UNETR_PROJECT_NAME := "brain-age";
  FULL_DATA_CSV := "full_data.csv";
  TEST_CSV := "test_set.csv";
  UNETR_OPTIMIZER_CLASS := λ _ _, ok "adam";
  UNETR_OPTIMIZER_PARAMS := [("lr", 1)];
  UNETR_SCHEDULER_CLASS := λ _ _, ok "plateau";
  UNETR_SCHEDULER_PARAMS := [("patience", 5)];
  UNETR_MAX_EPOCHS := 40
|}.

Definition m0 : memory := Memory [] ∅ ∅ false [] ().

(** An output directory with two checkpoints, the later one of epoch 7. *)
Definition checkpoints : gmap path node :=
  <[["last_model.pth"; "unetr"; "outputs"] :=
      File 20 (CheckpointFile (Checkpoint 7 "unetr@7" "adam@7" "plateau@7" 31 30))]>
  (<[["best_model.pth"; "unetr"; "outputs"] :=
      File 10 (CheckpointFile (Checkpoint 5 "unetr@5" "adam@5" "plateau@5" 30 30))]>
  (<[["unetr"; "outputs"] := Dir]> (<[["outputs"] := Dir]> ∅))).

Definition m_resumed : memory := Memory [] ∅ checkpoints false [] ().

(** Epochs that do nothing, and the collaborators with [load_last_model]
    and [train] as modelled. *)
Definition one_epoch (_ _ : string) (_ _ _ : string) (_ : path) (_ : Z)
    (s : gmap path node * unit) : (exn + unit) * (gmap path node * unit) :=
  (inr (), s).

Definition modelled : Collaborators := as_modelled quiet 1000 1000 one_epoch.

End Toy.


(** ** More to read off a run *)

Section MoreObservations.
Context `{F : Framework} `{C : !Collaborators}.

(** The calls into the experiment tracker, in order. *)
Definition wandb_calls (l : list event) : list event :=
  l ≫= λ ev,
    match ev with
    | WandbSettings _ _ | WandbInit _ _ | SetRunName _ => [ev]
    | _ => []
    end.

(** The call recorded in [en], started from the memory [en] records,
    returned [v]. *)
Definition returned_by {R} (en : entry) (op : memory → (exn + R) * memory)
    (v : R) : Prop :=
  (op (e_before en)).1 = inr v.


(** Where a device comes from: among the calls [t] there is a call of
    [torch.cuda.is_available()] that returned [available] and a call of
    [torch.device] on ["cuda"] or ["cpu"] accordingly that returned the
    device; the message is printed exactly when there is no GPU. *)
Definition device_choice (t : list entry) (device : Device) : Prop :=
  ∃ en_available en_device available,
    en_available ∈ t ∧ en_device ∈ t
    ∧ e_call en_available = CudaIsAvailable
    ∧ returned_by en_available (framework cuda_is_available) available
    ∧ e_call en_device = TorchDevice (if available : bool then "cuda" else "cpu")
    ∧ returned_by en_device
        (framework (torch_device (if available : bool then "cuda" else "cpu")))
        device
    ∧ (PrintLine "CUDA is not available. Using CPU." ∈ e_call <$> t
       ↔ available = false).

(** Where the objects handed to [load_last_model] come from: the network
    built by [UNETR], wrapped, moved to the device; the optimizer built on
    its parameters; the scheduler built on that optimizer. *)
Definition resume_inputs (cfg : config) (t : list entry) (device : Device)
    (model : Model) (optimizer : Optimizer) (scheduler : Scheduler) : Prop :=
  ∃ en_net en_wrap en_to en_params en_optimizer en_scheduler net wrapped params,
    en_net ∈ t ∧ en_wrap ∈ t ∧ en_to ∈ t ∧ en_params ∈ t
    ∧ en_optimizer ∈ t ∧ en_scheduler ∈ t
    ∧ e_call en_net = MakeUNETR 3 1 1 (128, 160, 128)
    ∧ returned_by en_net (framework (UNETR 3 1 1 (128, 160, 128))) net
    ∧ e_call en_wrap = WrapDataParallel net
    ∧ returned_by en_wrap (framework (DataParallel net)) wrapped
    ∧ e_call en_to = ModelTo wrapped device
    ∧ returned_by en_to (framework (to wrapped device)) model
    ∧ e_call en_params = ModelParameters model
    ∧ returned_by en_params (framework (parameters model)) params
    ∧ e_call en_optimizer
      = MakeOptimizer (UNETR_OPTIMIZER_CLASS cfg) params
          (UNETR_OPTIMIZER_PARAMS cfg)
    ∧ returned_by en_optimizer
        (framework (UNETR_OPTIMIZER_CLASS cfg params (UNETR_OPTIMIZER_PARAMS cfg)))
        optimizer
    ∧ e_call en_scheduler
      = MakeScheduler (UNETR_SCHEDULER_CLASS cfg) optimizer
          (UNETR_SCHEDULER_PARAMS cfg)
    ∧ returned_by en_scheduler
        (framework (UNETR_SCHEDULER_CLASS cfg optimizer
                      (UNETR_SCHEDULER_PARAMS cfg)))
        scheduler.

(** Where what [test] is given comes from: the model is the one
    [load_last_model] returned, the loader the last one [load_data]
    returned, and [train] was called on that model, with the optimizer,
    scheduler and start epoch of the same [load_last_model] call and the
    train and validation loaders of the same [load_data] call, and
    returned. *)
Definition evaluation_inputs (cfg : config) (t : list entry)
    (test_loader : Loader) (model : Model) (directory_name : path) : Prop :=
  ∃ en_resume en_data en_train model0 optimizer0 scheduler0
    optimizer scheduler start_epoch last_val_loss best_val_loss
    ds_train train_loader ds_val val_loader ds_test,
    en_resume ∈ t ∧ en_data ∈ t ∧ en_train ∈ t
    ∧ e_call en_resume
      = LoadLastModel model0 optimizer0 scheduler0 directory_name
    ∧ returned_by en_resume
        (collaborator
           (load_last_model model0 optimizer0 scheduler0 directory_name))
        (model, optimizer, scheduler, start_epoch, last_val_loss, best_val_loss)
    ∧ e_call en_data = LoadData (TEST_CSV cfg) (FULL_DATA_CSV cfg)
    ∧ returned_by en_data
        (collaborator (load_data (TEST_CSV cfg) (FULL_DATA_CSV cfg)))
        (ds_train, train_loader, ds_val, val_loader, ds_test, test_loader)
    ∧ e_call en_train
      = Train train_loader val_loader model optimizer scheduler
          (UNETR_MAX_EPOCHS cfg) directory_name start_epoch
    ∧ e_outcome en_train = Returned.

(** The whole file, run under the module name [dunder_name]: the block
    under [if __name__ == "__main__":] is entered only for that name. *)
Definition run_module (cfg : config) (dunder_name : string) : M unit :=
  bind (module_setup cfg)
    (λ _, if String.eqb dunder_name "__main__" then dunder_main cfg
          else ret ()).

End MoreObservations.

(** More inputs for the small framework. *)
Module Cases.

(** A regular file where the output directory should be. *)
Definition file_in_the_way : gmap path (@node Toy.F) :=
  <[["unetr"; "outputs"] := File 3 OtherFile]> (<[["outputs"] := Dir]> ∅).

Definition m_blocked : @memory Toy.F :=
  @Memory Toy.F [] ∅ file_in_the_way false [] ().

(** A framework whose tracker already has a run, and which has a GPU. *)
#[local] Instance tracked : Framework := {|
  Device := string;
  Settings := string * Z;
  Run := string;
  Model := string;
  ParamIter := string;
  Kwargs := list (string * Z);
  Optimizer := string;
  Scheduler := string;
  Loss := Z;
  Dataset := string;
  Loader := string;
  W := unit;
  print_config := Toy.ok ();
  wandb_run_is_None := λ _, false;
  wandb_Settings := λ start_method service_wait, Toy.ok (start_method, service_wait);
  wandb_init := λ project _, Toy.ok project;
  wandb_run_set_name := λ _, Toy.ok ();
  cuda_is_available := Toy.ok true;
  torch_device := λ kind, Toy.ok kind;
  UNETR := λ _ _ _ _, Toy.ok "unetr";
  DataParallel := λ model, Toy.ok model;
  to := λ model _, Toy.ok model;
  parameters := λ _, Toy.ok "parameters"
|}.

Definition quiet : @Collaborators tracked := {|
  load_last_model := λ model optimizer scheduler _ fs,
    Toy.ok_fs (model, optimizer, scheduler, 0, 0, 0) fs;
  load_data := λ _ _ fs,
    Toy.ok_fs ("ds_train", "train_loader", "ds_val", "val_loader", "ds_test",
               "test_loader") fs;
  train := λ _ _ _ _ _ _ _ _ fs, Toy.ok_fs () fs;
  test := λ _ _ _ _ fs, Toy.ok_fs () fs
|}.

Definition cfg : @config tracked := {|
  UNETR_OUTPUT_DIR := ["unetr"; "outputs"];
  UNETR_PROJECT_NAME := "brain-age";
  FULL_DATA_CSV := "full_data.csv";
  TEST_CSV := "test_set.csv";
  UNETR_OPTIMIZER_CLASS := λ _ _, Toy.ok "adam";
  UNETR_OPTIMIZER_PARAMS := [("lr", 1)];
  UNETR_SCHEDULER_CLASS := λ _ _, Toy.ok "plateau";
  UNETR_SCHEDULER_PARAMS := [("patience", 5)];
  UNETR_MAX_EPOCHS := 40
|}.

Definition m0 : @memory tracked := @Memory tracked [] ∅ ∅ false [] ().

(** A framework in which the tracker settings cannot be built. *)
#[local] Instance offline : Framework := {|
  Device := string;
  Settings := string * Z;
  Run := string;
  Model := string;
  ParamIter := string;
  Kwargs := list (string * Z);
  Optimizer := string;
  Scheduler := string;
  Loss := Z;
  Dataset := string;
  Loader := string;
  W := unit;
  print_config := Toy.ok ();
  wandb_run_is_None := λ _, true;
  wandb_Settings := λ _ _ w,
    (inl (FrameworkError "TypeError" "unexpected keyword argument"), w);
  wandb_init := λ project _, Toy.ok project;
  wandb_run_set_name := λ _, Toy.ok ();
  cuda_is_available := Toy.ok false;
  torch_device := λ kind, Toy.ok kind;
  UNETR := λ _ _ _ _, Toy.ok "unetr";
  DataParallel := λ model, Toy.ok model;
  to := λ model _, Toy.ok model;
  parameters := λ _, Toy.ok "parameters"
|}.

Definition offline_quiet : @Collaborators offline := {|
  load_last_model := λ model optimizer scheduler _ fs,
    Toy.ok_fs (model, optimizer, scheduler, 0, 0, 0) fs;
  load_data := λ _ _ fs,
    Toy.ok_fs ("ds_train", "train_loader", "ds_val", "val_loader", "ds_test",
               "test_loader") fs;
  train := λ _ _ _ _ _ _ _ _ fs, Toy.ok_fs () fs;
  test := λ _ _ _ _ fs, Toy.ok_fs () fs
|}.

Definition offline_cfg : @config offline := {|
  UNETR_OUTPUT_DIR := ["unetr"; "outputs"];
  UNETR_PROJECT_NAME := "brain-age";
  FULL_DATA_CSV := "full_data.csv";
  TEST_CSV := "test_set.csv";
  UNETR_OPTIMIZER_CLASS := λ _ _, Toy.ok "adam";
  UNETR_OPTIMIZER_PARAMS := [("lr", 1)];
  UNETR_SCHEDULER_CLASS := λ _ _, Toy.ok "plateau";
  UNETR_SCHEDULER_PARAMS := [("patience", 5)];
  UNETR_MAX_EPOCHS := 40
|}.

Definition offline_m0 : @memory offline := @Memory offline [] ∅ ∅ false [] ().

End Cases.

(** * Proofs *)

Ltac unfold_monad := unfold mbind, mret, M_bind, M_ret.

Ltac unfold_script :=
  unfold script, dunder_main, select_device, main, module_setup, os_makedirs,
    print, cudnn_benchmark_set, os_environ_set, steps, returned, result, final,
    trace, calls;
  unfold_monad;
  unfold bind, call, read, ret, framework, collaborator, on_fs;
  cbn [ext fs environ argv stdout cudnn_benchmark].

(** One step of symbolic execution: case analysis on what the next call
    does. *)
Ltac step :=
  match goal with
  | |- context [match ?x with pair _ _ => _ end] =>
      is_var x; destruct x
  | |- context [match ?x with inl _ => _ | inr _ => _ end] =>
      is_var x; destruct x
  | |- context [if ?x then _ else _] =>
      is_var x; destruct x
  | |- context [match ?x with pair _ _ => _ end] =>
      lazymatch x with
      | context [match _ with _ => _ end] => fail
      | _ => let H := fresh "E" in destruct x eqn:H
      end
  | |- context [if ?x then _ else _] =>
      lazymatch x with
      | context [match _ with _ => _ end] => fail
      | _ => let H := fresh "E" in destruct x eqn:H
      end
  end;
  cbn [ext fs environ argv stdout cudnn_benchmark fst snd app].

(** Proofs that follow the structure of the script: one rule per
    construct of the monad, case analysis at branches and tuple patterns. *)
Ltac by_structure bind_rule call_rule ret_rule read_rule :=
  repeat first
    [ apply ret_rule
    | apply read_rule
    | apply call_rule
    | apply bind_rule; [ | intros ]
    | match goal with
      | |- context [if ?b then _ else _] => destruct b
      | |- context [match ?x with pair _ _ => _ end] => is_var x; destruct x
      end ].

Ltac in_list :=
  solve [repeat first [apply list_elem_of_here | apply list_elem_of_further]].

(** ** The monad *)

Section MonadFacts.
Context `{F : Framework}.

Lemma result_bind {A B} (c : M A) (k : A → M B) m :
  result (bind c k m) =
  match result (c m) with
  | inl e => inl e
  | inr a => result (k a (final (c m)))
  end.
Proof.
  unfold result, final, bind.
  destruct (c m) as [[[e|a] m1] t1]; simpl; [done|].
  by destruct (k a m1) as [[r m2] t2].
Qed.

Lemma final_bind {A B} (c : M A) (k : A → M B) m :
  final (bind c k m) =
  match result (c m) with
  | inl e => final (c m)
  | inr a => final (k a (final (c m)))
  end.
Proof.
  unfold result, final, bind.
  destruct (c m) as [[[e|a] m1] t1]; simpl; [done|].
  by destruct (k a m1) as [[r m2] t2].
Qed.

Lemma trace_bind {A B} (c : M A) (k : A → M B) m :
  trace (bind c k m) =
  match result (c m) with
  | inl e => trace (c m)
  | inr a => trace (c m) ++ trace (k a (final (c m)))
  end.
Proof.
  unfold result, final, trace, bind.
  destruct (c m) as [[[e|a] m1] t1]; simpl; [done|].
  by destruct (k a m1) as [[r m2] t2].
Qed.

Lemma calls_bind {A B} (c : M A) (k : A → M B) m :
  calls (bind c k m) =
  match result (c m) with
  | inl e => calls (c m)
  | inr a => calls (c m) ++ calls (k a (final (c m)))
  end.
Proof.
  unfold calls. rewrite trace_bind.
  destruct (result (c m)); [done|]. by rewrite fmap_app.
Qed.

(** *** Nothing is caught *)

Lemma propagates_ret {A} (a : A) m : propagates (ret a m).
Proof. constructor. Qed.

Lemma propagates_read {A} (f : W → A) m : propagates (read f m).
Proof. constructor. Qed.

Lemma propagates_call {R} ev (op : memory → (exn + R) * memory) m :
  propagates (call ev op m).
Proof.
  unfold propagates, call, result, trace.
  destruct (op m) as [[e|v] m']; simpl.
  - exists [], (Entry ev m (Raised e)). by repeat split.
  - by repeat constructor.
Qed.

Lemma propagates_bind {A B} (c : M A) (k : A → M B) m :
  propagates (c m) → (∀ a m1, propagates (k a m1)) → propagates (bind c k m).
Proof.
  unfold propagates. rewrite result_bind, trace_bind.
  destruct (result (c m)) as [e|a]; [done|].
  intros Hc Hk. specialize (Hk a (final (c m))).
  destruct (result (k a (final (c m)))) as [e|b].
  - destruct Hk as (init & en & -> & Hen & Hinit).
    exists (trace (c m) ++ init), en. rewrite app_assoc.
    repeat split; [done|]. by apply Forall_app.
  - by apply Forall_app.
Qed.

Lemma propagates_raised {A} (x : (exn + A) * memory * list entry) en e :
  propagates x → en ∈ trace x → e_outcome en = Raised e →
  result x = inl e ∧ last (trace x) = Some en.
Proof.
  unfold propagates. intros Hx Hin Hen.
  destruct (result x) as [e'|a].
  - destruct Hx as (init & en' & Ht & Hen' & Hinit).
    rewrite Ht in Hin |- *. rewrite last_snoc.
    apply elem_of_app in Hin as [Hin|Hin].
    + rewrite Forall_forall in Hinit. specialize (Hinit _ Hin). congruence.
    + apply list_elem_of_singleton in Hin. subst en'. split; congruence.
  - rewrite Forall_forall in Hx. specialize (Hx _ Hin). congruence.
Qed.

Lemma propagates_result {A} (x : (exn + A) * memory * list entry) e :
  propagates x → result x = inl e →
  ∃ en, last (trace x) = Some en ∧ e_outcome en = Raised e.
Proof.
  unfold propagates. intros Hx Hr. rewrite Hr in Hx.
  destruct Hx as (init & en & -> & Hen & _).
  exists en. by rewrite last_snoc.
Qed.

(** *** Every call satisfies a property of calls *)

Lemma calls_ret {A} (P : event → Prop) (a : A) m : Forall P (calls (ret a m)).
Proof. constructor. Qed.

Lemma calls_read {A} (P : event → Prop) (f : W → A) m :
  Forall P (calls (read f m)).
Proof. constructor. Qed.

Lemma calls_call {R} (P : event → Prop) ev (op : memory → (exn + R) * memory) m :
  P ev → Forall P (calls (call ev op m)).
Proof.
  intros Hev. unfold calls, call, trace.
  destruct (op m) as [[e|v] m']; simpl; by repeat constructor.
Qed.

Lemma calls_bind_Forall {A B} (P : event → Prop) (c : M A) (k : A → M B) m :
  Forall P (calls (c m)) → (∀ a m1, Forall P (calls (k a m1))) →
  Forall P (calls (bind c k m)).
Proof.
  intros Hc Hk. rewrite calls_bind.
  destruct (result (c m)); [done|]. by apply Forall_app.
Qed.

(** *** The command line is not read *)

Lemma retarget_ret {A} a (x : A) m : ret x (with_argv a m) = retarget a (ret x m).
Proof. done. Qed.

Lemma retarget_read {A} a (f : W → A) m :
  read f (with_argv a m) = retarget a (read f m).
Proof. done. Qed.

Lemma retarget_call {R} a ev (op : memory → (exn + R) * memory) m :
  op (with_argv a m) = ((op m).1, with_argv a (op m).2) →
  call ev op (with_argv a m) = retarget a (call ev op m).
Proof.
  intros Hop. unfold call, retarget, result, final, trace. rewrite Hop.
  by destruct (op m) as [[e|v] m'].
Qed.

Lemma retarget_bind {A B} a (c : M A) (k : A → M B) m :
  c (with_argv a m) = retarget a (c m) →
  (∀ x m1, k x (with_argv a m1) = retarget a (k x m1)) →
  bind c k (with_argv a m) = retarget a (bind c k m).
Proof.
  intros Hc Hk. unfold bind. rewrite Hc. unfold retarget, result, final, trace.
  destruct (c m) as [[[e|x] m1] t1]; simpl; [done|].
  rewrite Hk. unfold retarget, result, final, trace.
  destruct (k x m1) as [[r m2] t2]; simpl. by rewrite fmap_app.
Qed.

Lemma retarget_framework {R} (a : list string) (op : W → (exn + R) * W) m :
  framework op (with_argv a m)
  = ((framework op m).1, with_argv a (framework op m).2).
Proof. unfold framework. simpl. by destruct (op (ext m)). Qed.

Lemma retarget_collaborator {R} (a : list string)
    (op : gmap path node → W → (exn + R) * (gmap path node * W)) m :
  collaborator op (with_argv a m)
  = ((collaborator op m).1, with_argv a (collaborator op m).2).
Proof. unfold collaborator. simpl. by destruct (op (fs m) (ext m)) as [? []]. Qed.

Lemma retarget_on_fs {R} (a : list string) (op : gmap path node → (exn + R) * gmap path node) m :
  on_fs op (with_argv a m) = ((on_fs op m).1, with_argv a (on_fs op m).2).
Proof. unfold on_fs. simpl. by destruct (op (fs m)). Qed.

End MonadFacts.

(** ** The file system *)

Section FileSystem.
Context `{F : Framework}.

Lemma mkdir_leaf_returns (name : path) (exist_ok : bool)
    (fs fs' : gmap path node) (u : unit) :
  mkdir_leaf name exist_ok fs = (inr u, fs') → isdir fs' name = true.
Proof.
  unfold mkdir_leaf, mkdir. destruct name as [|tail head].
  - simpl. destruct exist_ok; simpl; [|done]. by intros [= <- <-].
  - destruct (exists_ fs (tail :: head)) eqn:Hex.
    + destruct (negb exist_ok || negb (isdir fs (tail :: head))) eqn:Hsw; [done|].
      intros [= _ <-]. apply orb_false_elim in Hsw as [_ Hsw].
      by apply negb_false_iff in Hsw.
    + destruct (isdir fs head).
      * intros [= _ <-]. unfold isdir, node_at. by rewrite lookup_insert_eq.
      * destruct (exists_ fs head);
          (destruct (negb exist_ok || negb (isdir fs (tail :: head))) eqn:Hsw;
           [done|]);
          intros [= _ <-]; apply orb_false_elim in Hsw as [_ Hsw];
          by apply negb_false_iff in Hsw.
Qed.

Lemma makedirs_nested (tail tail' : string) (head : path) (exist_ok : bool)
    (fs : gmap path node) :
  makedirs (tail :: tail' :: head) exist_ok fs =
  if exists_ fs (tail' :: head) then mkdir_leaf (tail :: tail' :: head) exist_ok fs
  else
    match makedirs (tail' :: head) exist_ok fs with
    | (inl (FileExistsError _), fs1) =>
        mkdir_leaf (tail :: tail' :: head) exist_ok fs1
    | (inl e, fs1) => (inl e, fs1)
    | (inr _, fs1) => mkdir_leaf (tail :: tail' :: head) exist_ok fs1
    end.
Proof. done. Qed.

Lemma makedirs_returns (name : path) (exist_ok : bool)
    (fs fs' : gmap path node) (u : unit) :
  makedirs name exist_ok fs = (inr u, fs') → isdir fs' name = true.
Proof.
  destruct name as [|tail [|tail' head]];
    try apply mkdir_leaf_returns.
  rewrite makedirs_nested.
  destruct (exists_ fs (tail' :: head)); [apply mkdir_leaf_returns|].
  destruct (makedirs (tail' :: head) exist_ok fs) as [[[]|[]] fs1];
    first [apply mkdir_leaf_returns | done].
Qed.

Lemma only_adds_dirs_refl (fs : gmap path node) : only_adds_dirs fs fs.
Proof. intros q. by left. Qed.

Lemma only_adds_dirs_trans (fs1 fs2 fs3 : gmap path node) :
  only_adds_dirs fs1 fs2 → only_adds_dirs fs2 fs3 → only_adds_dirs fs1 fs3.
Proof.
  intros H12 H23 q. destruct (H12 q) as [E12|[E1 E2]], (H23 q) as [E23|[E2' E3]].
  - left. congruence.
  - right. split; congruence.
  - right. split; congruence.
  - congruence.
Qed.

Lemma mkdir_leaf_ok (tail : string) (head : path) (fs : gmap path node) :
  isdir fs head = true →
  (∀ t d, fs !! (tail :: head) ≠ Some (File t d)) →
  ∃ fs', mkdir_leaf (tail :: head) true fs = (inr (), fs')
         ∧ only_adds_dirs fs fs'.
Proof.
  intros Hhead Hname. unfold mkdir_leaf, mkdir.
  destruct (fs !! (tail :: head)) as [[|t d]|] eqn:Hlook.
  - assert (exists_ fs (tail :: head) = true) as ->
      by (unfold exists_, node_at; by rewrite Hlook).
    assert (isdir fs (tail :: head) = true) as ->
      by (unfold isdir, node_at; by rewrite Hlook).
    exists fs. split; [done|apply only_adds_dirs_refl].
  - by destruct (Hname t d).
  - assert (exists_ fs (tail :: head) = false) as ->
      by (unfold exists_, node_at; by rewrite Hlook).
    rewrite Hhead. exists (<[tail :: head := Dir]> fs). split; [done|].
    intros q. destruct (decide (q = tail :: head)) as [->|Hne].
    + right. by rewrite lookup_insert_eq.
    + left. by rewrite lookup_insert_ne.
Qed.

Lemma isdir_only_adds_dirs (fs fs' : gmap path node) (p : path) :
  only_adds_dirs fs fs' → isdir fs p = true → isdir fs' p = true.
Proof.
  intros Hadd. unfold isdir, node_at. destruct p as [|tail head]; [done|].
  destruct (Hadd (tail :: head)) as [->|[-> ->]]; done.
Qed.

Lemma exists_isdir_clear (fs : gmap path node) (p : path) :
  clear_of_files fs p = true → exists_ fs p = true → isdir fs p = true.
Proof.
  unfold exists_, isdir, node_at. destruct p as [|tail head]; [done|].
  simpl. by destruct (fs !! (tail :: head)) as [[]|].
Qed.

Lemma clear_of_files_head (fs : gmap path node) (tail : string) (head : path) :
  clear_of_files fs (tail :: head) = true →
  clear_of_files fs head = true
  ∧ ∀ t d, fs !! (tail :: head) ≠ Some (File t d).
Proof.
  simpl. destruct (fs !! (tail :: head)) as [[]|]; by intros.
Qed.

Lemma makedirs_ok (name : path) (fs : gmap path node) :
  clear_of_files fs name = true →
  ∃ fs', makedirs name true fs = (inr (), fs')
         ∧ isdir fs' name = true ∧ only_adds_dirs fs fs'.
Proof.
  revert fs. induction name as [|tail head IH]; intros fs Hclear.
  - exists fs. split; [done|]. split; [done|apply only_adds_dirs_refl].
  - apply clear_of_files_head in Hclear as [Hhead Hname].
    assert (∀ fs1, only_adds_dirs fs fs1 → isdir fs1 head = true →
              ∃ fs', mkdir_leaf (tail :: head) true fs1 = (inr (), fs')
                     ∧ isdir fs' (tail :: head) = true ∧ only_adds_dirs fs fs')
      as Hleaf.
    { intros fs1 Hadd Hdir.
      destruct (mkdir_leaf_ok tail head fs1 Hdir) as (fs' & Hmk & Hadd').
      - intros t d Hlook. destruct (Hadd (tail :: head)) as [E|[_ E]].
        + rewrite Hlook in E. by destruct (Hname t d).
        + congruence.
      - exists fs'. split; [done|]. split.
        + by apply mkdir_leaf_returns in Hmk.
        + by apply only_adds_dirs_trans with fs1. }
    destruct head as [|tail' head'].
    + simpl. apply Hleaf; [apply only_adds_dirs_refl|done].
    + rewrite makedirs_nested. destruct (exists_ fs (tail' :: head')) eqn:Hex.
      * apply Hleaf; [apply only_adds_dirs_refl|].
        by apply exists_isdir_clear.
      * destruct (IH fs Hhead) as (fs1 & -> & Hdir & Hadd). by apply Hleaf.
Qed.

End FileSystem.

(** ** The script *)

Section Script.
Context `{F : Framework} `{C : !Collaborators}.
Variable cfg : config.

(** *** Nothing is caught *)

Lemma module_setup_propagates m : propagates (module_setup cfg m).
Proof.
  unfold module_setup, os_environ_set, cudnn_benchmark_set. unfold_monad.
  by_structure (@propagates_bind F) (@propagates_call F) (@propagates_ret F)
    (@propagates_read F).
Qed.

Lemma select_device_propagates m : propagates (select_device m).
Proof.
  unfold select_device, print. unfold_monad.
  by_structure (@propagates_bind F) (@propagates_call F) (@propagates_ret F)
    (@propagates_read F).
Qed.

Lemma main_propagates device m : propagates (main cfg device m).
Proof.
  unfold main, os_makedirs. unfold_monad.
  by_structure (@propagates_bind F) (@propagates_call F) (@propagates_ret F)
    (@propagates_read F).
Qed.

Lemma script_propagates m : propagates (script cfg m).
Proof.
  unfold script, dunder_main. unfold_monad.
  apply propagates_bind; [apply module_setup_propagates|]. intros _ m1.
  apply propagates_bind; [apply select_device_propagates|]. intros device m2.
  apply main_propagates.
Qed.

(** *** The arguments of the calls *)

Lemma module_setup_as_written m :
  Forall (as_written cfg) (calls (module_setup cfg m)).
Proof.
  unfold module_setup, os_environ_set, cudnn_benchmark_set. unfold_monad.
  by_structure (@calls_bind_Forall F) (@calls_call F) (@calls_ret F)
    (@calls_read F).
  all: simpl; auto.
Qed.

Lemma select_device_as_written m :
  Forall (as_written cfg) (calls (select_device m)).
Proof.
  unfold select_device, print. unfold_monad.
  by_structure (@calls_bind_Forall F) (@calls_call F) (@calls_ret F)
    (@calls_read F).
  all: simpl; auto.
Qed.

Lemma main_as_written device m :
  Forall (as_written cfg) (calls (main cfg device m)).
Proof.
  unfold main, os_makedirs. unfold_monad.
  by_structure (@calls_bind_Forall F) (@calls_call F) (@calls_ret F)
    (@calls_read F).
  all: simpl; auto.
Qed.

Lemma script_as_written m : Forall (as_written cfg) (calls (script cfg m)).
Proof.
  unfold script, dunder_main. unfold_monad.
  apply calls_bind_Forall; [apply module_setup_as_written|]. intros _ m1.
  apply calls_bind_Forall; [apply select_device_as_written|]. intros device m2.
  apply main_as_written.
Qed.

Lemma as_written_accounted ev : as_written cfg ev → accounted cfg ev.
Proof.
  unfold accounted.
  destruct ev; simpl; intros H;
    repeat match goal with
    | H : _ ∧ _ |- _ => destruct H
    | H : _ ∨ _ |- _ => destruct H
    | H : (_, _) = (_, _) |- _ => injection H as ??
    end; subst;
    repeat apply List.Forall_cons; try apply List.Forall_nil;
    first [ left; unfold configured; in_list
          | right; unfold written_in_script; in_list ].
Qed.

(** *** The command line is not read *)

Ltac retarget_structure :=
  by_structure (@retarget_bind F) (@retarget_call F) (@retarget_ret F)
    (@retarget_read F);
  first [apply retarget_framework | apply retarget_collaborator
        | apply retarget_on_fs | done].

Lemma module_setup_retarget a m :
  module_setup cfg (with_argv a m) = retarget a (module_setup cfg m).
Proof.
  unfold module_setup, os_environ_set, cudnn_benchmark_set. unfold_monad.
  retarget_structure.
Qed.

Lemma select_device_retarget a m :
  select_device (with_argv a m) = retarget a (select_device m).
Proof. unfold select_device, print. unfold_monad. retarget_structure. Qed.

Lemma main_retarget a device m :
  main cfg device (with_argv a m) = retarget a (main cfg device m).
Proof. unfold main, os_makedirs. unfold_monad. retarget_structure. Qed.

Lemma script_retarget a m :
  script cfg (with_argv a m) = retarget a (script cfg m).
Proof.
  unfold script, dunder_main. unfold_monad.
  apply retarget_bind; [apply module_setup_retarget|]. intros _ m1.
  apply retarget_bind; [apply select_device_retarget|]. intros device m2.
  apply main_retarget.
Qed.

(** *** The order of the steps *)





Lemma module_setup_phase m :
  Forall (λ ev, phase_of ev = ConfigureEnvironment) (calls (module_setup cfg m)).
Proof.
  unfold module_setup, os_environ_set, cudnn_benchmark_set. unfold_monad.
  by_structure (@calls_bind_Forall F) (@calls_call F) (@calls_ret F)
    (@calls_read F); done.
Qed.





(** *** The process environment *)

Lemma module_setup_environ m :
  environ_writes (calls (module_setup cfg m)) `prefix_of` environ_assignments
  ∧ (∀ k, k ≠ "PYTORCH_CUDA_ALLOC_CONF" → k ≠ "TORCH_USE_CUDA_DSA" →
          environ (final (module_setup cfg m)) !! k = environ m !! k)
  ∧ (returned (module_setup cfg m) = true →
     environ_writes (calls (module_setup cfg m)) = environ_assignments
     ∧ environ (final (module_setup cfg m))
       = <["TORCH_USE_CUDA_DSA" := "1"]>
           (<["PYTORCH_CUDA_ALLOC_CONF" := "expandable_segments:True"]>
              (environ m))).
Proof.
  unfold_script. repeat step.
  all: split; [by eexists|]; split; [|done].
  all: intros k HA HB; by rewrite ?lookup_insert_ne.
Qed.

Lemma select_device_environ m :
  environ_writes (calls (select_device m)) = []
  ∧ environ (final (select_device m)) = environ m.
Proof. unfold_script. by repeat step. Qed.

Lemma main_environ device m :
  environ_writes (calls (main cfg device m)) = []
  ∧ environ (final (main cfg device m)) = environ m.
Proof. unfold_script. by repeat step. Qed.

Lemma dunder_main_environ m :
  environ_writes (calls (dunder_main cfg m)) = []
  ∧ environ (final (dunder_main cfg m)) = environ m.
Proof.
  unfold dunder_main. unfold_monad. rewrite calls_bind, final_bind.
  destruct (select_device_environ m) as [Hw He].
  destruct (result (select_device m)) as [e|device]; [done|].
  destruct (main_environ device (final (select_device m))) as [Hw' He'].
  unfold environ_writes in *. rewrite bind_app, Hw, Hw'. split; [done|].
  congruence.
Qed.

(** *** The output directory at resume *)

Lemma main_resume_directory device m :
  Forall (λ en, ∀ model optimizer scheduler directory_name,
            e_call en = LoadLastModel model optimizer scheduler directory_name →
            directory_name = UNETR_OUTPUT_DIR cfg
            ∧ isdir (fs (e_before en)) directory_name = true)
    (trace (main cfg device m)).
Proof.
  unfold_script. repeat step.
  all: repeat apply List.Forall_cons; try apply List.Forall_nil.
  all: simpl; intros ???? [=]; subst.
  all: split; [done|].
  all: by eapply makedirs_returns.
Qed.

Lemma main_makedirs_first device m :
  head (calls (main cfg device m)) = Some (Makedirs (UNETR_OUTPUT_DIR cfg) true)
  ∧ (clear_of_files (fs m) (UNETR_OUTPUT_DIR cfg) = true →
     e_outcome <$> head (trace (main cfg device m)) = Some Returned).
Proof.
  unfold_script. repeat step.
  all: split; [done|]; try done.
  intros (fs' & Hok & _)%makedirs_ok. congruence.
Qed.

(** *** What [train] is called with *)

Lemma main_train_arguments device m :
  Forall (λ en, ∀ train_loader val_loader model optimizer scheduler max_epochs
                  directory_name start_epoch,
            e_call en = Train train_loader val_loader model optimizer scheduler
                          max_epochs directory_name start_epoch →
            max_epochs = UNETR_MAX_EPOCHS cfg
            ∧ ∃ en' model0 optimizer0 scheduler0 last_val_loss best_val_loss m',
                en' ∈ trace (main cfg device m)
                ∧ e_call en'
                  = LoadLastModel model0 optimizer0 scheduler0 directory_name
                ∧ collaborator
                    (load_last_model model0 optimizer0 scheduler0 directory_name)
                    (e_before en')
                  = (inr (model, optimizer, scheduler, start_epoch,
                          last_val_loss, best_val_loss), m'))
    (trace (main cfg device m)).
Proof.
  unfold_script. repeat step.
  all: repeat apply List.Forall_cons; try apply List.Forall_nil.
  all: simpl; intros ???????? [=]; subst.
  all: split; [done|].
  all: match goal with
       | |- context [Entry (LoadLastModel ?a ?b ?c ?d) ?mem ?o] =>
           exists (Entry (LoadLastModel a b c d) mem o)
       end.
  all: do 6 eexists; split; [in_list|]; split; [done|].
  all: unfold collaborator; simpl.
  all: match goal with
       | E : load_last_model _ _ _ _ _ _ = _ |- _ => by rewrite E
       end.
Qed.



End Script.

(** ** [train.py] as modelled *)

Section TrainPyFacts.
Context `{F : Framework}.

Lemma elem_of_checkpoints_in (fs : gmap path node) (d : path)
    (t : Z) (ck : checkpoint) :
  (t, ck) ∈ TrainPy.checkpoints_in fs d
  ↔ ∃ name, fs !! (name :: d) = Some (File t (CheckpointFile ck)).
Proof.
  unfold TrainPy.checkpoints_in. rewrite list_elem_of_omap. split.
  - intros ([p n] & Hin & Hsome). apply elem_of_map_to_list in Hin.
    destruct p as [|name parent]; [done|].
    destruct n as [|mtime [ck'|]]; try done.
    destruct (decide (parent = d)) as [->|]; [|done].
    injection Hsome as -> ->. by exists name.
  - intros [name Hlook]. exists (name :: d, File t (CheckpointFile ck)).
    split; [by apply elem_of_map_to_list|]. by rewrite decide_True.
Qed.

Lemma most_recent_nil (l : list (Z * checkpoint)) :
  TrainPy.most_recent l = None → l = [].
Proof. destruct l as [|x l]; [done|]. simpl. by destruct (TrainPy.most_recent l). Qed.

Lemma most_recent_latest (l : list (Z * checkpoint)) (x : Z * checkpoint) :
  TrainPy.most_recent l = Some x → x ∈ l ∧ ∀ y, y ∈ l → y.1 ≤ x.1.
Proof.
  revert x. induction l as [|z l IH]; intros x; [done|]. simpl.
  destruct (TrainPy.most_recent l) as [y|] eqn:Hrec.
  - destruct (IH y eq_refl) as [Hy Hmax]. intros [= <-].
    destruct (decide (z.1 < y.1)) as [Hlt|Hge].
    + split; [by apply list_elem_of_further|].
      intros y' [->|Hy']%elem_of_cons; [lia|by apply Hmax].
    + split; [apply list_elem_of_here|].
      intros y' [->|Hy']%elem_of_cons; [lia|]. specialize (Hmax _ Hy'). lia.
  - intros [= <-]. apply most_recent_nil in Hrec as ->.
    split; [apply list_elem_of_here|].
    by intros y' ->%list_elem_of_singleton.
Qed.

(** What [load_last_model] returns, in terms of the files of the
    directory. *)
Lemma load_last_model_cases (default_last_val_loss default_best_val_loss : Loss)
    (model : Model) (optimizer : Optimizer) (scheduler : Scheduler)
    (directory_name : path) (fs : gmap path node) (w : W) :
  ((∀ name mtime ck,
      fs !! (name :: directory_name) ≠ Some (File mtime (CheckpointFile ck)))
   ∧ TrainPy.load_last_model default_last_val_loss default_best_val_loss
       model optimizer scheduler directory_name fs w
     = (inr (model, optimizer, scheduler, 0,
             default_last_val_loss, default_best_val_loss), (fs, w)))
  ∨ (∃ name mtime ck,
       fs !! (name :: directory_name) = Some (File mtime (CheckpointFile ck))
       ∧ (∀ name' mtime' ck',
            fs !! (name' :: directory_name)
            = Some (File mtime' (CheckpointFile ck')) → mtime' ≤ mtime)
       ∧ TrainPy.load_last_model default_last_val_loss default_best_val_loss
           model optimizer scheduler directory_name fs w
         = (inr (ck_model ck, ck_optimizer ck, ck_scheduler ck, ck_epoch ck,
                 ck_last_val_loss ck, ck_best_val_loss ck), (fs, w))).
Proof.
  unfold TrainPy.load_last_model.
  destruct (TrainPy.most_recent (TrainPy.checkpoints_in fs directory_name))
    as [[mtime ck]|] eqn:Hrec.
  - right. apply most_recent_latest in Hrec as [Hin Hmax].
    apply elem_of_checkpoints_in in Hin as [name Hname].
    exists name, mtime, ck. split; [done|]. split; [|done].
    intros name' mtime' ck' Hname'.
    apply (Hmax (mtime', ck')), elem_of_checkpoints_in. by exists name'.
  - left. split; [|done]. intros name mtime ck Hname.
    apply most_recent_nil in Hrec.
    assert ((mtime, ck) ∈ TrainPy.checkpoints_in fs directory_name) as Hin
      by (apply elem_of_checkpoints_in; by exists name).
    rewrite Hrec in Hin. by apply elem_of_nil in Hin.
Qed.

Lemma for_epoch_in_ran {St : Type} (epochs : list Z)
    (body : Z → St → (exn + unit) * St) (s : St) :
  (TrainPy.for_epoch_in epochs body s).2 `prefix_of` epochs
  ∧ (∀ u, (TrainPy.for_epoch_in epochs body s).1.1 = inr u →
          (TrainPy.for_epoch_in epochs body s).2 = epochs).
Proof.
  revert s. induction epochs as [|epoch rest IH]; intros s; simpl.
  - split; [done|]. done.
  - destruct (body epoch s) as [[e|u] s1]; simpl.
    + split; [|done]. by exists rest.
    + destruct (IH s1) as [Hprefix Hall].
      destruct (TrainPy.for_epoch_in rest body s1) as [[r s2] ran]; simpl in *.
      split; [by apply prefix_cons|]. intros u' Hr. by rewrite (Hall u' Hr).
Qed.

Lemma elem_of_range (start stop epoch : Z) :
  epoch ∈ TrainPy.range start stop ↔ start ≤ epoch < stop.
Proof. unfold TrainPy.range. rewrite elem_of_seqZ. lia. Qed.

Lemma NoDup_prefix {A} (l1 l2 : list A) : l1 `prefix_of` l2 → NoDup l2 → NoDup l1.
Proof. intros [k ->] Hnd. by apply NoDup_app in Hnd as [? _]. Qed.

End TrainPyFacts.

(** * Properties of the script *)

Section Claims.
Context `{F : Framework} `{C : !Collaborators}.
Variable cfg : config.



(** C7, as amended.  The script itself makes at most two assignments to
    the process environment and no other: every assignment to [os.environ]
    made in a run is [PYTORCH_CUDA_ALLOC_CONF = 'expandable_segments:True']
    or [TORCH_USE_CUDA_DSA = '1']; the assignments made, in order, are an
    initial part of these two; they are all made by the statements of the
    module, none by the block under [if __name__ == "__main__":] or by
    [main]; and a run in which the statements of the module run through
    has made both.  What the libraries called assign on their own is not
    spoken of. *)
Theorem environ_assignments_of_the_script (m : memory) :
  let run := script cfg m in
  Forall (λ ev, ∀ key value,
            ev = SetEnviron key value → (key, value) ∈ environ_assignments)
    (calls run)
  ∧ environ_writes (calls run) `prefix_of` environ_assignments
  ∧ environ_writes (calls run) = environ_writes (calls (module_setup cfg m))
  ∧ (returned (module_setup cfg m) = true →
     environ_writes (calls run) = environ_assignments).
Proof.
  intros run.
  assert (environ_writes (calls run)
          = environ_writes (calls (module_setup cfg m))) as Hsetup.
  { subst run. unfold script. unfold_monad. rewrite calls_bind.
    destruct (result (module_setup cfg m)) as [e|d0]; [done|].
    destruct (dunder_main_environ cfg (final (module_setup cfg m))) as [Hw _].
    unfold environ_writes in *. by rewrite bind_app, Hw, app_nil_r. }
  destruct (module_setup_environ cfg m) as (Hprefix & _ & Hall).
  split; [|split; [by rewrite Hsetup|split; [done|]]].
  - eapply Forall_impl; [apply script_as_written|]. simpl.
    intros ev Hev key value ->. unfold environ_assignments.
    destruct Hev as [->| ->]; in_list.
  - intros Hret. rewrite Hsetup. by apply Hall.
Qed.

(** C8.  Nothing is caught, wrapped or retried: when a call made by [main]
    raises [e], [main] ends with that same [e] and the failing call is the
    last call made; [main] ends with an exception only in that way; and the
    same holds of the whole script, so the exception ends the process. *)
Theorem failures_propagate_unchanged (device : Device) (m : memory) :
  (∀ en e, en ∈ trace (main cfg device m) → e_outcome en = Raised e →
           result (main cfg device m) = inl e
           ∧ last (trace (main cfg device m)) = Some en)
  ∧ (∀ e, result (main cfg device m) = inl e →
          ∃ en, last (trace (main cfg device m)) = Some en
                ∧ e_outcome en = Raised e)
  ∧ (∀ en e, en ∈ trace (script cfg m) → e_outcome en = Raised e →
             result (script cfg m) = inl e
             ∧ last (trace (script cfg m)) = Some en)
  ∧ (∀ e, result (script cfg m) = inl e →
          ∃ en, last (trace (script cfg m)) = Some en
                ∧ e_outcome en = Raised e).
Proof.
  pose proof (main_propagates cfg device m) as Hmain.
  pose proof (script_propagates cfg m) as Hscript.
  split; [intros en e; apply (propagates_raised _ en e Hmain)|].
  split; [intros e; apply (propagates_result _ e Hmain)|].
  split; [intros en e; apply (propagates_raised _ en e Hscript)|].
  intros e; apply (propagates_result _ e Hscript).
Qed.

(** C9, as amended.  The script takes nothing from the command line, and
    every call has the arguments the text of the script gives it: output
    directory, project name, CSV paths, optimizer and scheduler classes with
    their parameters and the maximum number of epochs are the configured
    ones; every other plain argument (the two environment assignments, the
    tracker settings and run name, the cudnn flag, the device names,
    [exist_ok], the printed message and the shape of the network:
    [spatial_dims=3], [in_channels=1], [out_channels=1],
    [img_size=(128, 160, 128)]) is a constant of the script. *)
Theorem arguments_from_configuration_or_script_text (m : memory) :
  let run := script cfg m in
  Forall (as_written cfg) (calls run)
  ∧ Forall (accounted cfg) (calls run)
  ∧ (∀ a, script cfg (with_argv a m) = retarget a run).
Proof.
  intros run. split; [apply script_as_written|]. split.
  - eapply Forall_impl; [apply script_as_written|]. apply as_written_accounted.
  - intros a. apply script_retarget.
Qed.

(** C10.  [main] begins with [os.makedirs(UNETR_OUTPUT_DIR, exist_ok=True)],
    which returns whenever no regular file is in the way, whether or not
    the directory is already there; and whenever [load_last_model] is
    called, it is called on [UNETR_OUTPUT_DIR] and that path is a directory
    at that moment. *)
Theorem output_directory_exists_at_resume (device : Device) (m : memory) :
  let run := main cfg device m in
  head (calls run) = Some (Makedirs (UNETR_OUTPUT_DIR cfg) true)
  ∧ (clear_of_files (fs m) (UNETR_OUTPUT_DIR cfg) = true →
     e_outcome <$> head (trace run) = Some Returned)
  ∧ Forall (λ en, ∀ model optimizer scheduler directory_name,
              e_call en = LoadLastModel model optimizer scheduler directory_name →
              directory_name = UNETR_OUTPUT_DIR cfg
              ∧ isdir (fs (e_before en)) directory_name = true)
      (trace run).
Proof.
  intros run. destruct (main_makedirs_first cfg device m) as [Hfirst Hok].
  split; [done|]. split; [done|]. apply main_resume_directory.
Qed.

End Claims.

Section ModelledClaims.
Context `{F : Framework} `{C : !Collaborators}.
Variable cfg : config.
Variables default_last_val_loss default_best_val_loss : Loss.
Variable one_epoch :
  Loader → Loader → Model → Optimizer → Scheduler → path → Z →
  gmap path node * W → (exn + unit) * (gmap path node * W).

Lemma for_epoch_in_first {St : Type} (epoch : Z) (rest : list Z)
    (body : Z → St → (exn + unit) * St) (s : St) :
  head (TrainPy.for_epoch_in (epoch :: rest) body s).2 = Some epoch.
Proof.
  simpl. destruct (body epoch s) as [[e|u] s1]; [done|].
  by destruct (TrainPy.for_epoch_in rest body s1) as [[r s2] ran].
Qed.

Lemma train_epochs_ran
    (train_loader val_loader : Loader) (model : Model) (optimizer : Optimizer)
    (scheduler : Scheduler) (max_epochs : Z) (directory_name : path)
    (start_epoch : Z) (fs : gmap path node) (w : W) :
  let out := TrainPy.train_epochs one_epoch train_loader val_loader model
               optimizer scheduler max_epochs directory_name start_epoch fs w in
  out.2 `prefix_of` TrainPy.range start_epoch max_epochs
  ∧ (∀ u, out.1.1 = inr u → out.2 = TrainPy.range start_epoch max_epochs)
  ∧ (∀ epoch, epoch ∈ out.2 → start_epoch ≤ epoch < max_epochs)
  ∧ NoDup out.2
  ∧ (start_epoch < max_epochs → head out.2 = Some start_epoch).
Proof.
  intros out. subst out. unfold TrainPy.train_epochs.
  destruct (for_epoch_in_ran (TrainPy.range start_epoch max_epochs)
              (one_epoch train_loader val_loader model optimizer scheduler
                 directory_name) (fs, w)) as [Hprefix Hall].
  split; [done|]. split; [done|]. split; [|split].
  - intros epoch Hin. apply elem_of_range.
    destruct Hprefix as [k ->]. apply elem_of_app. by left.
  - eapply NoDup_prefix; [done|]. apply NoDup_seqZ.
  - intros Hlt. unfold TrainPy.range.
    rewrite seqZ_cons by lia. apply for_epoch_in_first.
Qed.

(** C1.  For every state of the file system, [load_last_model] either
    finds no checkpoint file in the directory and returns the objects it
    was given, epoch 0 and the two default losses, or returns the epoch
    index, the states and the last and best validation loss stored in a
    checkpoint file of the directory that no other checkpoint file of the
    directory is more recent than.  [main] calls it on [UNETR_OUTPUT_DIR]. *)
Theorem resume_restores_what_was_saved (device : Device) (m : memory) :
  (∀ (model : Model) (optimizer : Optimizer) (scheduler : Scheduler)
     (directory_name : path) (fs : gmap path node) (w : W),
     let out := TrainPy.load_last_model default_last_val_loss
                  default_best_val_loss model optimizer scheduler
                  directory_name fs w in
     ((∀ name mtime ck,
         fs !! (name :: directory_name) ≠ Some (File mtime (CheckpointFile ck)))
      ∧ out = (inr (model, optimizer, scheduler, 0,
                    default_last_val_loss, default_best_val_loss), (fs, w)))
     ∨ (∃ name mtime ck,
          fs !! (name :: directory_name) = Some (File mtime (CheckpointFile ck))
          ∧ (∀ name' mtime' ck',
               fs !! (name' :: directory_name)
               = Some (File mtime' (CheckpointFile ck')) → mtime' ≤ mtime)
          ∧ out = (inr (ck_model ck, ck_optimizer ck, ck_scheduler ck,
                        ck_epoch ck, ck_last_val_loss ck, ck_best_val_loss ck),
                   (fs, w))))
  ∧ Forall (λ ev, ∀ model optimizer scheduler directory_name,
              ev = LoadLastModel model optimizer scheduler directory_name →
              directory_name = UNETR_OUTPUT_DIR cfg)
      (calls (main cfg device m)).
Proof.
  split; [intros; apply load_last_model_cases|].
  eapply Forall_impl; [apply main_as_written|]. by intros ev Hev ???? ->.
Qed.

(** C2.  Resuming twice in a row, the second time with what the first
    returned, gives what resuming once gives; [load_last_model] leaves the
    file system and the state of the framework as they were; and when the
    directory holds no checkpoint it returns the model, optimizer and
    scheduler it was given. *)
Theorem resume_is_idempotent
    (model : Model) (optimizer : Optimizer) (scheduler : Scheduler)
    (directory_name : path) (fs : gmap path node) (w : W) :
  TrainPy.load_last_model_twice default_last_val_loss default_best_val_loss
    model optimizer scheduler directory_name fs w
  = TrainPy.load_last_model default_last_val_loss default_best_val_loss
      model optimizer scheduler directory_name fs w
  ∧ (TrainPy.load_last_model default_last_val_loss default_best_val_loss
       model optimizer scheduler directory_name fs w).2 = (fs, w)
  ∧ ((∀ name mtime ck,
        fs !! (name :: directory_name) ≠ Some (File mtime (CheckpointFile ck))) →
     TrainPy.load_last_model default_last_val_loss default_best_val_loss
       model optimizer scheduler directory_name fs w
     = (inr (model, optimizer, scheduler, 0,
             default_last_val_loss, default_best_val_loss), (fs, w))).
Proof.
  split; [|split].
  - unfold TrainPy.load_last_model_twice, TrainPy.load_last_model.
    destruct (TrainPy.most_recent (TrainPy.checkpoints_in fs directory_name))
      as [[mtime ck]|] eqn:Hrec; simpl; by rewrite Hrec.
  - unfold TrainPy.load_last_model.
    by destruct (TrainPy.most_recent (TrainPy.checkpoints_in fs directory_name))
      as [[mtime ck]|].
  - intros Hnone.
    destruct (load_last_model_cases default_last_val_loss default_best_val_loss
                model optimizer scheduler directory_name fs w)
      as [[_ Hout]|(name & mtime & ck & Hname & _)]; [done|].
    by destruct (Hnone name mtime ck).
Qed.


(** C4.  [main] calls [train] with [UNETR_MAX_EPOCHS] as [max_epochs], and
    [train] as modelled runs no epoch whose index is [max_epochs] or more,
    whatever the start epoch. *)
Theorem training_never_passes_max_epochs (device : Device) (m : memory) :
  let run := @main F (as_modelled C default_last_val_loss default_best_val_loss
                        one_epoch) cfg device m in
  Forall (λ en, ∀ train_loader val_loader model optimizer scheduler max_epochs
                  directory_name start_epoch,
            e_call en = Train train_loader val_loader model optimizer scheduler
                          max_epochs directory_name start_epoch →
            max_epochs = UNETR_MAX_EPOCHS cfg
            ∧ Forall (λ epoch, epoch < UNETR_MAX_EPOCHS cfg)
                (TrainPy.train_epochs one_epoch train_loader val_loader model
                   optimizer scheduler max_epochs directory_name start_epoch
                   (fs (e_before en)) (ext (e_before en))).2)
    (trace run)
  ∧ (∀ train_loader val_loader model optimizer scheduler max_epochs
       directory_name start_epoch fs w,
       Forall (λ epoch, epoch < max_epochs)
         (TrainPy.train_epochs one_epoch train_loader val_loader model optimizer
            scheduler max_epochs directory_name start_epoch fs w).2).
Proof.
  intros run.
  assert (∀ train_loader val_loader model optimizer scheduler max_epochs
            directory_name start_epoch (fs : gmap path node) (w : W),
            Forall (λ epoch, epoch < max_epochs)
              (TrainPy.train_epochs one_epoch train_loader val_loader model
                 optimizer scheduler max_epochs directory_name start_epoch fs w).2)
    as Hloop.
  { intros. apply Forall_forall. intros epoch Hin.
    by apply train_epochs_ran in Hin as [_ ?]. }
  split; [|done].
  pose proof (@main_train_arguments F
                (as_modelled C default_last_val_loss default_best_val_loss
                   one_epoch) cfg device m) as Hargs.
  eapply Forall_impl; [exact Hargs|]. simpl.
  intros en Hen train_loader val_loader model optimizer scheduler max_epochs
    directory_name start_epoch Hcall.
  destruct (Hen _ _ _ _ _ _ _ _ Hcall) as [-> _]. split; [done|]. apply Hloop.
Qed.

End ModelledClaims.

(** * Runs on the small framework *)

Section Runs.
#[local] Existing Instance Toy.F.


(** C7, as stated, fails: when the tracker settings cannot be built the
    run ends between the two assignments, so only
    [PYTORCH_CUDA_ALLOC_CONF] is assigned and [TORCH_USE_CUDA_DSA] is left
    unset. *)
Lemma one_variable_when_the_tracker_fails :
  environ_writes
    (calls (@script Cases.offline Cases.offline_quiet Cases.offline_cfg
              Cases.offline_m0))
  = [("PYTORCH_CUDA_ALLOC_CONF", "expandable_segments:True")]
  ∧ environ
      (final (@script Cases.offline Cases.offline_quiet Cases.offline_cfg
                Cases.offline_m0)) !! "TORCH_USE_CUDA_DSA" = None
  ∧ environ_writes
      (calls (@script Cases.offline Cases.offline_quiet Cases.offline_cfg
                Cases.offline_m0))
    ≠ environ_assignments.
Proof. split; [by vm_compute|]. split; by vm_compute. Qed.

(** C9, as stated, fails: the shape of the network passed to [UNETR] is in
    no configuration value. *)
Lemma network_shape_not_configured :
  ¬ Forall (only_configured Toy.cfg)
      (calls (@script Toy.F Toy.quiet Toy.cfg Toy.m0)).
Proof.
  intros Hall. rewrite Forall_forall in Hall.
  specialize (Hall (MakeUNETR 3 1 1 (128, 160, 128))).
  assert (MakeUNETR 3 1 1 (128, 160, 128)
          ∈ calls (@script Toy.F Toy.quiet Toy.cfg Toy.m0)) as Hin.
  { set (l := calls _). vm_compute in l. subst l. in_list. }
  specialize (Hall Hin). unfold only_configured in Hall.
  rewrite Forall_forall in Hall.
  specialize (Hall (LShape (128, 160, 128))).
  assert (LShape (128, 160, 128) ∈ literals (MakeUNETR 3 1 1 (128, 160, 128)))
    as Hlit by (cbn [literals]; in_list).
  specialize (Hall Hlit). unfold configured in Hall.
  repeat (apply elem_of_cons in Hall as [Hall|Hall]; [discriminate|]).
  by apply elem_of_nil in Hall.
Qed.

Lemma resume_without_checkpoint_witness :
  TrainPy.load_last_model 1000 1000 "unetr" "adam" "plateau"
    ["unetr"; "outputs"] ∅ ()
  = (inr ("unetr", "adam", "plateau", 0, 1000, 1000), (∅, ())).
Proof.
  destruct (proj1 (@resume_restores_what_was_saved Toy.F Toy.quiet Toy.cfg
                     1000 1000 "cpu" Toy.m0)
              "unetr" "adam" "plateau" ["unetr"; "outputs"] ∅ ())
    as [[_ Hout]|(name & mtime & ck & Hname & _)].
  - exact Hout.
  - rewrite lookup_empty in Hname. discriminate Hname.
Defined.

Lemma resume_twice_witness :
  TrainPy.load_last_model 1000 1000 "unetr" "adam" "plateau"
    ["unetr"; "outputs"] ∅ ()
  = (inr ("unetr", "adam", "plateau", 0, 1000, 1000), (∅, ())).
Proof.
  apply (@resume_is_idempotent Toy.F 1000 1000 "unetr" "adam" "plateau"
           ["unetr"; "outputs"] ∅ ()).
  intros name mtime ck Hname. rewrite lookup_empty in Hname. discriminate Hname.
Defined.


Lemma training_below_max_epochs_witness :
  Forall (λ epoch, epoch < 10)
    (TrainPy.train_epochs Toy.one_epoch "train_loader" "val_loader" "unetr"
       "adam" "plateau" 10 ["unetr"; "outputs"] 7 ∅ ()).2.
Proof.
  apply (@training_never_passes_max_epochs Toy.F Toy.quiet Toy.cfg 1000 1000
           Toy.one_epoch "cpu" Toy.m0).
Defined.



Lemma environ_assignments_witness :
  environ_writes (calls (@script Toy.F Toy.quiet Toy.cfg Toy.m0))
  = environ_assignments.
Proof.
  apply (@environ_assignments_of_the_script Toy.F Toy.quiet Toy.cfg Toy.m0).
  reflexivity.
Defined.

Lemma failure_witness :
  ∃ en, last (trace (@main Toy.F Toy.missing_csv Toy.cfg "cpu" Toy.m0)) = Some en
        ∧ e_outcome en = Raised (FileNotFoundError ["full_data.csv"]).
Proof.
  apply (@failures_propagate_unchanged Toy.F Toy.missing_csv Toy.cfg "cpu" Toy.m0).
  reflexivity.
Defined.

Lemma command_line_witness :
  @script Toy.F Toy.quiet Toy.cfg (with_argv ["--max-epochs"; "3"] Toy.m0)
  = retarget ["--max-epochs"; "3"] (@script Toy.F Toy.quiet Toy.cfg Toy.m0).
Proof.
  apply (@arguments_from_configuration_or_script_text Toy.F Toy.quiet Toy.cfg
           Toy.m0).
Defined.

Lemma makedirs_witness :
  e_outcome <$> head (trace (@main Toy.F Toy.quiet Toy.cfg "cpu" Toy.m0))
  = Some Returned.
Proof.
  apply (@output_directory_exists_at_resume Toy.F Toy.quiet Toy.cfg "cpu" Toy.m0).
  reflexivity.
Defined.

(** Some runs, evaluated. *)

Example resume_from_the_later_checkpoint :
  (TrainPy.load_last_model 1000 1000 "unetr" "adam" "plateau"
     ["unetr"; "outputs"] Toy.checkpoints ()).1
  = inr ("unetr@7", "adam@7", "plateau@7", 7, 31, 30).
Proof. by vm_compute. Qed.

Example epochs_7_to_9 :
  (TrainPy.train_epochs Toy.one_epoch "train_loader" "val_loader" "unetr"
     "adam" "plateau" 10 ["unetr"; "outputs"] 7 ∅ ()).2 = [7; 8; 9].
Proof. by vm_compute. Qed.

Example no_epoch_when_already_past_max :
  (TrainPy.train_epochs Toy.one_epoch "train_loader" "val_loader" "unetr"
     "adam" "plateau" 10 ["unetr"; "outputs"] 12 ∅ ()).2 = [].
Proof. by vm_compute. Qed.

Example makedirs_creates_the_parents :
  (makedirs ["unetr"; "outputs"] true ∅).1 = inr ()
  ∧ isdir (makedirs ["unetr"; "outputs"] true ∅).2 ["outputs"] = true
  ∧ isdir (makedirs ["unetr"; "outputs"] true ∅).2 ["unetr"; "outputs"] = true.
Proof. by vm_compute. Qed.

Example makedirs_stopped_by_a_file :
  (makedirs ["unetr"; "outputs"] true (<[["outputs"] := File 1 OtherFile]> ∅)).1
  = inl (NotADirectoryError ["unetr"; "outputs"]).
Proof. by vm_compute. Qed.

Example calls_of_a_resumed_run :
  calls (@main Toy.F Toy.modelled Toy.cfg "cpu" Toy.m_resumed)
  = [Makedirs ["unetr"; "outputs"] true;
     MakeUNETR 3 1 1 (128, 160, 128);
     WrapDataParallel "unetr";
     ModelTo "unetr" "cpu";
     ModelParameters "unetr";
     MakeOptimizer (UNETR_OPTIMIZER_CLASS Toy.cfg) "parameters" [("lr", 1)];
     MakeScheduler (UNETR_SCHEDULER_CLASS Toy.cfg) "adam" [("patience", 5)];
     LoadLastModel "unetr" "adam" "plateau" ["unetr"; "outputs"];
     LoadData "test_set.csv" "full_data.csv";
     Train "train_loader" "val_loader" "unetr@7" "adam@7" "plateau@7" 40
       ["unetr"; "outputs"] 7;
     TestModel "test_loader" "unetr@7" ["unetr"; "outputs"] "test_set.csv"].
Proof. by vm_compute. Qed.

End Runs.

(** * More of the script *)

Section MoreFileSystem.
Context `{F : Framework}.




Lemma makedirs_on_a_file (tail : string) (head : path) (mtime : Z)
    (data : file_data) (fs : gmap path node) :
  fs !! (tail :: head) = Some (File mtime data) →
  head = [] ∨ exists_ fs head = true →
  makedirs (tail :: head) true fs = (inl (FileExistsError (tail :: head)), fs).
Proof.
  intros Hfile Hparent.
  assert (mkdir_leaf (tail :: head) true fs
          = (inl (FileExistsError (tail :: head)), fs)) as Hleaf.
  { unfold mkdir_leaf, mkdir, exists_, isdir, node_at. rewrite Hfile. simpl.
    by rewrite Hfile. }
  destruct head as [|tail' head']; [done|].
  rewrite makedirs_nested. by destruct Hparent as [[=]| ->].
Qed.

End MoreFileSystem.

Section MoreScript.
Context `{F : Framework} `{C : !Collaborators}.
Variable cfg : config.

(** *** The tracker *)

Lemma wandb_calls_none (l : list event) :
  Forall (λ ev, wandb_calls [ev] = []) l → wandb_calls l = [].
Proof.
  induction 1 as [|ev l Hev _ IH]; [done|].
  change (ev :: l) with ([ev] ++ l). unfold wandb_calls in *.
  by rewrite bind_app, Hev, IH.
Qed.

Lemma select_device_no_wandb m :
  Forall (λ ev, wandb_calls [ev] = []) (calls (select_device m)).
Proof.
  unfold select_device, print. unfold_monad.
  by_structure (@calls_bind_Forall F) (@calls_call F) (@calls_ret F)
    (@calls_read F); done.
Qed.

Lemma main_no_wandb device m :
  Forall (λ ev, wandb_calls [ev] = []) (calls (main cfg device m)).
Proof.
  unfold main, os_makedirs. unfold_monad.
  by_structure (@calls_bind_Forall F) (@calls_call F) (@calls_ret F)
    (@calls_read F); done.
Qed.

Lemma dunder_main_no_wandb m : wandb_calls (calls (dunder_main cfg m)) = [].
Proof.
  apply wandb_calls_none. unfold dunder_main. unfold_monad.
  apply calls_bind_Forall; [apply select_device_no_wandb|].
  intros device m1. apply main_no_wandb.
Qed.

Lemma script_wandb_calls m :
  wandb_calls (calls (script cfg m)) = wandb_calls (calls (module_setup cfg m)).
Proof.
  unfold script. unfold_monad. rewrite calls_bind.
  destruct (result (module_setup cfg m)) as [e|d0]; [done|].
  unfold wandb_calls at 1. rewrite bind_app.
  fold (wandb_calls (calls (module_setup cfg m))).
  fold (wandb_calls (calls (dunder_main cfg (final (module_setup cfg m))))).
  by rewrite dunder_main_no_wandb, app_nil_r.
Qed.

Lemma module_setup_tracker m :
  (wandb_run_is_None (print_config (ext m)).2 = false →
   wandb_calls (calls (module_setup cfg m)) = [])
  ∧ (wandb_run_is_None (print_config (ext m)).2 = true →
     returned (module_setup cfg m) = true →
     ∃ settings,
       (wandb_Settings "fork" 300 (print_config (ext m)).2).1 = inr settings
       ∧ wandb_calls (calls (module_setup cfg m))
         = [WandbSettings "fork" 300;
            WandbInit (UNETR_PROJECT_NAME cfg) settings;
            SetRunName "x"]).
Proof.
  unfold_script. repeat step.
  all: simpl in *.
  all: split; [intros; first [done|congruence]|].
  all: intros; first [done|congruence|idtac].
  all: eexists; split; reflexivity.
Qed.

(** X1.  When a tracker run is already active, the script makes no call
    into the tracker at all: no settings are built, [wandb.init] is not
    called and the run is not renamed. *)
Theorem tracker_left_alone_when_a_run_is_active (m : memory) :
  wandb_run_is_None (print_config (ext m)).2 = false →
  wandb_calls (calls (script cfg m)) = [].
Proof.
  rewrite script_wandb_calls. apply module_setup_tracker.
Qed.

(** X2.  When no tracker run is active and the statements of the module
    run through, the calls into the tracker are, in this order and nothing
    else in the whole run: the settings with [start_method="fork"] and
    [_service_wait=300], [wandb.init] on the configured project with the
    settings just built, and the renaming of the run to ['x']. *)
Theorem tracker_initialised_when_no_run_is_active (m : memory) :
  wandb_run_is_None (print_config (ext m)).2 = true →
  returned (module_setup cfg m) = true →
  ∃ settings,
    (wandb_Settings "fork" 300 (print_config (ext m)).2).1 = inr settings
    ∧ wandb_calls (calls (script cfg m))
      = [WandbSettings "fork" 300;
         WandbInit (UNETR_PROJECT_NAME cfg) settings;
         SetRunName "x"].
Proof.
  rewrite script_wandb_calls. apply module_setup_tracker.
Qed.

(** *** The device *)

Lemma dunder_main_device m :
  Forall (λ en, ∀ model device,
            e_call en = ModelTo model device →
            device_choice (trace (dunder_main cfg m)) device)
    (trace (dunder_main cfg m)).
Proof.
  unfold device_choice. unfold_script. repeat step.
  all: repeat apply List.Forall_cons; try apply List.Forall_nil.
  all: simpl; intros ?? [=]; subst.
  all: match goal with
       | |- context [Entry CudaIsAvailable ?mem ?o] =>
           exists (Entry CudaIsAvailable mem o)
       end.
  all: match goal with
       | |- context [Entry (TorchDevice ?a) ?mem ?o] =>
           exists (Entry (TorchDevice a) mem o)
       end.
  all: match goal with
       | |- context [TorchDevice "cuda"] => exists true
       | |- context [TorchDevice "cpu"] => exists false
       end.
  all: do 2 (split; [in_list|]).
  all: unfold returned_by, framework; simpl.
  all: repeat match goal with
       | E : _ = (inr _, _) |- _ => rewrite E; clear E
       end; simpl.
  all: do 4 (split; [done|]).
  all: split;
    [ first [ done
            | intros Hin; exfalso;
              repeat (apply elem_of_cons in Hin as [Hin|Hin]; [discriminate|]);
              by apply elem_of_nil in Hin ]
    | first [ done | intros _; in_list ] ].
Qed.

Lemma module_setup_no_model_move m :
  Forall (λ en, ∀ model device, e_call en ≠ ModelTo model device)
    (trace (module_setup cfg m)).
Proof.
  pose proof (module_setup_phase cfg m) as Hphase.
  unfold calls in Hphase. apply Forall_fmap in Hphase.
  eapply Forall_impl; [exact Hphase|]. simpl.
  intros en Hen model device Hcall. by rewrite Hcall in Hen.
Qed.

(** X3.  The device the model is moved to is the one chosen in the block
    under [if __name__ == "__main__":], after the statements of the module:
    the device built there on ["cuda"] when [torch.cuda.is_available()]
    returned true there, on ["cpu"] otherwise, in which case, and only
    then, the message is printed.  The device assigned at module level is
    not the one used. *)
Theorem device_chosen_under_dunder_main (m : memory) :
  ∃ t, trace (script cfg m) = trace (module_setup cfg m) ++ t
       ∧ Forall (λ en, ∀ model device,
                   e_call en = ModelTo model device → device_choice t device)
           (trace (script cfg m)).
Proof.
  unfold script. unfold_monad. rewrite trace_bind.
  pose proof (module_setup_no_model_move m) as Hsetup.
  destruct (result (module_setup cfg m)) as [e|d0].
  - exists []. rewrite app_nil_r. split; [done|].
    eapply Forall_impl; [exact Hsetup|]. simpl.
    intros en Hen model device Hcall. by destruct (Hen model device).
  - exists (trace (dunder_main cfg (final (module_setup cfg m)))).
    split; [done|]. apply Forall_app. split.
    + eapply Forall_impl; [exact Hsetup|]. simpl.
      intros en Hen model device Hcall. by destruct (Hen model device).
    + apply dunder_main_device.
Qed.

(** *** What is handed from call to call *)

(** X4.  Whenever [load_last_model] is called, the model it is given is
    the [UNETR] network with [spatial_dims=3], [in_channels=1],
    [out_channels=1], [img_size=(128, 160, 128)] after wrapping in
    [DataParallel] and moving to the device, the optimizer is the one built
    by the configured class on the parameters of that model, and the
    scheduler the one built by the configured class on that optimizer. *)
Theorem resume_of_the_built_objects (device : Device) (m : memory) :
  Forall (λ en, ∀ model optimizer scheduler directory_name,
            e_call en = LoadLastModel model optimizer scheduler directory_name →
            resume_inputs cfg (trace (main cfg device m)) device
              model optimizer scheduler)
    (trace (main cfg device m)).
Proof.
  unfold resume_inputs. unfold_script. repeat step.
  all: repeat apply List.Forall_cons; try apply List.Forall_nil.
  all: simpl; intros ???? [=]; subst.
  all: match goal with
       | |- context [Entry (MakeUNETR ?a ?b ?c ?d) ?mem ?o] =>
           exists (Entry (MakeUNETR a b c d) mem o)
       end.
  all: match goal with
       | |- context [Entry (WrapDataParallel ?a) ?mem ?o] =>
           exists (Entry (WrapDataParallel a) mem o)
       end.
  all: match goal with
       | |- context [Entry (ModelTo ?a ?b) ?mem ?o] =>
           exists (Entry (ModelTo a b) mem o)
       end.
  all: match goal with
       | |- context [Entry (ModelParameters ?a) ?mem ?o] =>
           exists (Entry (ModelParameters a) mem o)
       end.
  all: match goal with
       | |- context [Entry (MakeOptimizer ?a ?b ?c) ?mem ?o] =>
           exists (Entry (MakeOptimizer a b c) mem o)
       end.
  all: match goal with
       | |- context [Entry (MakeScheduler ?a ?b ?c) ?mem ?o] =>
           exists (Entry (MakeScheduler a b c) mem o)
       end.
  all: do 3 eexists.
  all: do 6 (split; [in_list|]).
  all: unfold returned_by, framework; simpl.
  all: repeat match goal with
       | E : _ = (inr _, _) |- _ => rewrite E; clear E
       end; simpl.
  all: by repeat split.
Qed.

(** X5.  Whenever [test] is called, [train] has been called and has
    returned; the model [test] is given is the one [load_last_model]
    returned, which is also the one [train] was given, together with the
    optimizer, scheduler and start epoch of the same [load_last_model]
    call; [train] got the train and validation loaders and [test] the test
    loader of the one [load_data] call.  The two losses [load_last_model]
    returns are passed to neither. *)
Theorem evaluation_of_the_trained_model (device : Device) (m : memory) :
  Forall (λ en, ∀ test_loader model directory_name test_csv,
            e_call en = TestModel test_loader model directory_name test_csv →
            evaluation_inputs cfg (trace (main cfg device m))
              test_loader model directory_name)
    (trace (main cfg device m)).
Proof.
  unfold evaluation_inputs. unfold_script. repeat step.
  all: repeat apply List.Forall_cons; try apply List.Forall_nil.
  all: simpl; intros ???? [=]; subst.
  all: match goal with
       | |- context [Entry (LoadLastModel ?a ?b ?c ?d) ?mem ?o] =>
           exists (Entry (LoadLastModel a b c d) mem o)
       end.
  all: match goal with
       | |- context [Entry (LoadData ?a ?b) ?mem ?o] =>
           exists (Entry (LoadData a b) mem o)
       end.
  all: match goal with
       | |- context [Entry (Train ?a ?b ?c ?d ?e ?f ?g ?h) ?mem ?o] =>
           exists (Entry (Train a b c d e f g h) mem o)
       end.
  all: do 13 eexists.
  all: split; [in_list|]; split; [in_list|]; split; [in_list|].
  all: split; [done|]; split.
  all: unfold returned_by, collaborator; simpl.
  all: repeat match goal with
       | E : load_last_model _ _ _ _ _ _ = _ |- _ => rewrite E; clear E
       | E : load_data _ _ _ _ = _ |- _ => rewrite E; clear E
       end; simpl.
  all: try done.
  all: split; [done|]; split; [|done]; split; [|done]; simpl.
  all: repeat match goal with
       | E : load_data _ _ _ _ = _ |- _ => rewrite E; clear E
       end; done.
Qed.

(** *** The file system up to resume *)


(** X7.  When the configured output path is a regular file (its parent
    being there), [exist_ok=True] does not help: [os.makedirs] raises
    [FileExistsError] on that path, [main] ends with it after this one
    call, nothing is built and the memory is as before. *)
Theorem main_stops_at_a_file_in_the_way (device : Device) (m : memory)
    (tail : string) (head : path) (mtime : Z) (data : file_data) :
  UNETR_OUTPUT_DIR cfg = tail :: head →
  fs m !! (tail :: head) = Some (File mtime data) →
  head = [] ∨ exists_ (fs m) head = true →
  result (main cfg device m) = inl (FileExistsError (tail :: head))
  ∧ calls (main cfg device m) = [Makedirs (tail :: head) true]
  ∧ final (main cfg device m) = m.
Proof.
  intros Hdir Hfile Hparent.
  pose proof (makedirs_on_a_file tail head mtime data (fs m) Hfile Hparent) as Hmk.
  unfold_script. rewrite Hdir, Hmk. simpl. by destruct m.
Qed.

(** *** Import *)

Lemma module_setup_no_makedirs m :
  Forall (λ ev, ∀ name exist_ok, ev ≠ Makedirs name exist_ok)
    (calls (module_setup cfg m)).
Proof.
  unfold module_setup, os_environ_set, cudnn_benchmark_set. unfold_monad.
  by_structure (@calls_bind_Forall F) (@calls_call F) (@calls_ret F)
    (@calls_read F); done.
Qed.

(** X8.  Run under the name ["__main__"] the file is the script.  Loaded
    under any other name it runs the statements of the module and stops:
    both environment variables are assigned and the tracker may be
    initialised, but [main] is not called, no directory is created and
    every call made belongs to the configuration of the environment. *)
Theorem import_runs_the_setup_only (dunder_name : string) (m : memory) :
  run_module cfg "__main__" m = script cfg m
  ∧ (dunder_name ≠ "__main__" →
     result (run_module cfg dunder_name m)
     = match result (module_setup cfg m) with
       | inl e => inl e
       | inr _ => inr ()
       end
     ∧ final (run_module cfg dunder_name m) = final (module_setup cfg m)
     ∧ trace (run_module cfg dunder_name m) = trace (module_setup cfg m)
     ∧ Forall (λ ev, phase_of ev = ConfigureEnvironment
                     ∧ ∀ name exist_ok, ev ≠ Makedirs name exist_ok)
         (calls (run_module cfg dunder_name m))
     ∧ (returned (run_module cfg dunder_name m) = true →
        environ_writes (calls (run_module cfg dunder_name m))
        = environ_assignments)).
Proof.
  split; [done|]. intros Hname%String.eqb_neq.
  unfold run_module. rewrite Hname.
  assert (trace (bind (module_setup cfg) (λ _ : Device, ret ()) m)
          = trace (module_setup cfg m)) as Htrace.
  { rewrite trace_bind. destruct (result (module_setup cfg m)); [done|].
    apply app_nil_r. }
  split; [by rewrite result_bind|].
  split; [rewrite final_bind; by destruct (result (module_setup cfg m))|].
  split; [done|].
  unfold returned, calls. rewrite Htrace, result_bind. split.
  - apply Forall_and. split; [apply module_setup_phase|].
    apply module_setup_no_makedirs.
  - intros Hret. apply module_setup_environ. unfold returned.
    by destruct (result (module_setup cfg m)).
Qed.

End MoreScript.

Section MoreRuns.
#[local] Existing Instance Toy.F.

Lemma tracker_left_alone_witness :
  wandb_calls (calls (@script Cases.tracked Cases.quiet Cases.cfg Cases.m0)) = [].
Proof.
  apply (@tracker_left_alone_when_a_run_is_active Cases.tracked Cases.quiet
           Cases.cfg Cases.m0).
  reflexivity.
Defined.

Lemma tracker_initialised_witness :
  ∃ settings,
    (@wandb_Settings Toy.F "fork" 300 (@print_config Toy.F (ext Toy.m0)).2).1
    = inr settings
    ∧ wandb_calls (calls (@script Toy.F Toy.quiet Toy.cfg Toy.m0))
      = [WandbSettings "fork" 300; WandbInit "brain-age" settings;
         SetRunName "x"].
Proof.
  apply (@tracker_initialised_when_no_run_is_active Toy.F Toy.quiet Toy.cfg
           Toy.m0); reflexivity.
Defined.

Lemma device_witness :
  ∃ t, trace (@script Toy.F Toy.quiet Toy.cfg Toy.m0)
       = trace (@module_setup Toy.F Toy.cfg Toy.m0) ++ t
       ∧ device_choice t "cpu".
Proof.
  destruct (@device_chosen_under_dunder_main Toy.F Toy.quiet Toy.cfg Toy.m0)
    as (t & Htrace & Hall).
  exists t. split; [exact Htrace|].
  assert (∃ en, trace (@script Toy.F Toy.quiet Toy.cfg Toy.m0) !! 15%nat = Some en
                ∧ e_call en = ModelTo "unetr" "cpu") as (en & Hen & Hcall).
  { eexists. split; [by vm_compute|reflexivity]. }
  exact (Forall_lookup_1 _ _ _ _ Hall Hen _ _ Hcall).
Defined.

Lemma resume_inputs_witness :
  resume_inputs Toy.cfg (trace (@main Toy.F Toy.quiet Toy.cfg "cpu" Toy.m0))
    "cpu" "unetr" "adam" "plateau".
Proof.
  assert (∃ en, trace (@main Toy.F Toy.quiet Toy.cfg "cpu" Toy.m0) !! 7%nat
                = Some en
                ∧ e_call en
                  = LoadLastModel "unetr" "adam" "plateau" ["unetr"; "outputs"])
    as (en & Hen & Hcall).
  { eexists. split; [by vm_compute|reflexivity]. }
  exact (Forall_lookup_1 _ _ _ _
           (@resume_of_the_built_objects Toy.F Toy.quiet Toy.cfg "cpu" Toy.m0)
           Hen _ _ _ _ Hcall).
Defined.

Lemma evaluation_inputs_witness :
  @evaluation_inputs Toy.F Toy.modelled Toy.cfg
    (trace (@main Toy.F Toy.modelled Toy.cfg "cpu" Toy.m_resumed))
    "test_loader" "unetr@7" ["unetr"; "outputs"].
Proof.
  assert (∃ en, trace (@main Toy.F Toy.modelled Toy.cfg "cpu" Toy.m_resumed)
                  !! 10%nat = Some en
                ∧ e_call en
                  = TestModel "test_loader" "unetr@7" ["unetr"; "outputs"]
                      "test_set.csv")
    as (en & Hen & Hcall).
  { eexists. split; [by vm_compute|reflexivity]. }
  exact (Forall_lookup_1 _ _ _ _
           (@evaluation_of_the_trained_model Toy.F Toy.modelled Toy.cfg "cpu"
              Toy.m_resumed)
           Hen _ _ _ _ Hcall).
Defined.


Lemma file_in_the_way_witness :
  result (@main Toy.F Toy.quiet Toy.cfg "cpu" Cases.m_blocked)
  = inl (FileExistsError ["unetr"; "outputs"])
  ∧ calls (@main Toy.F Toy.quiet Toy.cfg "cpu" Cases.m_blocked)
    = [Makedirs ["unetr"; "outputs"] true]
  ∧ final (@main Toy.F Toy.quiet Toy.cfg "cpu" Cases.m_blocked) = Cases.m_blocked.
Proof.
  apply (@main_stops_at_a_file_in_the_way Toy.F Toy.quiet Toy.cfg "cpu"
           Cases.m_blocked "unetr" ["outputs"] 3 OtherFile).
  - reflexivity.
  - by vm_compute.
  - right. by vm_compute.
Defined.

Lemma import_witness :
  trace (@run_module Toy.F Toy.quiet Toy.cfg "main_unetr" Toy.m0)
  = trace (@module_setup Toy.F Toy.cfg Toy.m0).
Proof.
  apply (@import_runs_the_setup_only Toy.F Toy.quiet Toy.cfg "main_unetr" Toy.m0).
  discriminate.
Defined.

End MoreRuns.
